(** * sandpack-bundler: preset dispatch and the compile cycle

    A shallow embedding of
      - [src/bundler/presets/react/ReactPreset.ts]
        ([init], [mapTransformers], [augmentDependencies]),
      - [src/bundler/presets/registry.ts] ([getPreset]),
      - [src/index.ts] ([SandpackInstance.handleParentMessage],
        [sendResizeEvent], [handleCompile]),
    and the properties of the specification stated over it. *)

From Stdlib Require Import String Ascii NArith List Bool Lia.
From stdpp Require Import base option list countable gmap.
Import ListNotations.

Set Warnings "-register-all".

Local Open Scope N_scope.
Local Open Scope list_scope.

(** ** JavaScript strings

    A JS string is a sequence of UTF-16 code units.  The regular
    expressions of the source carry no [u] flag, hence work on code
    units. *)

Module JsString.

Definition jsstring : Type := list N.

(** An ASCII literal of the source, read as code units. *)
Definition str (s : string) : jsstring :=
  map N_of_ascii (list_ascii_of_string s).

Definition eqb (a b : jsstring) : bool := bool_decide (a = b).

(** [String.prototype.startsWith] (position 0). *)
Fixpoint startsWith (s search : jsstring) {struct search} : bool :=
  match search, s with
  | [], _ => true
  | c :: search', d :: s' => N.eqb c d && startsWith s' search'
  | _ :: _, [] => false
  end.

(** [String.prototype.endsWith]: with [start = len - searchLength],
    false when [start < 0], else the code units from [start] on are
    compared with [search]. *)
Definition endsWith (s search : jsstring) : bool :=
  if (length s <? length search)%nat then false
  else eqb (skipn (length s - length search)%nat s) search.

(** LineTerminator code units: LF, CR, LS, PS. *)
Definition isLineTerminator (c : N) : bool :=
  N.eqb c 10 || N.eqb c 13 || N.eqb c 8232 || N.eqb c 8233.

(** No code unit of [p] is a line terminator. *)
Definition noLineTerminator (p : jsstring) : bool :=
  forallb (fun c => negb (isLineTerminator c)) p.

End JsString.
Import JsString.

(** ** Regular expressions

    The fragment of the RegExp syntax the source uses, with a
    backtracking matcher in continuation-passing style.  The matcher
    carries whether the current position is the start of the input
    (for [^]); [$] holds at the end of the input (no [m] flag). *)

Module RegExp.

Inductive regex : Type :=
| Empty                     (* the empty pattern *)
| Chr (c : N)               (* a literal code unit *)
| Bol                       (* ^ *)
| Eol                       (* $ *)
| NotAhead (r : regex)      (* (?!r) *)
| DotStar                   (* .* *)
| Seq (r1 r2 : regex)       (* r1r2 *)
| Alt (r1 r2 : regex)       (* r1|r2 *)
| Opt (r : regex).          (* r? *)

(** [.*]: [.] is any code unit but a line terminator; every split
    point is offered to the continuation. *)
Fixpoint dotStar (atStart : bool) (s : jsstring)
         (k : bool -> jsstring -> bool) : bool :=
  k atStart s ||
  match s with
  | [] => false
  | c :: s' => negb (isLineTerminator c) && dotStar false s' k
  end.

Fixpoint exec (r : regex) (atStart : bool) (s : jsstring)
         (k : bool -> jsstring -> bool) : bool :=
  match r with
  | Empty => k atStart s
  | Chr c =>
      match s with
      | d :: s' => N.eqb c d && k false s'
      | [] => false
      end
  | Bol => atStart && k atStart s
  | Eol => match s with [] => k atStart s | _ :: _ => false end
  | NotAhead r' => negb (exec r' atStart s (fun _ _ => true)) && k atStart s
  | DotStar => dotStar atStart s k
  | Seq r1 r2 => exec r1 atStart s (fun b s' => exec r2 b s' k)
  | Alt r1 r2 => exec r1 atStart s k || exec r2 atStart s k
  | Opt r' => exec r' atStart s k || k atStart s
  end.

(** A match attempt at the current position. *)
Definition matchHere (r : regex) (atStart : bool) (s : jsstring) : bool :=
  exec r atStart s (fun _ _ => true).

(** The search for a match at index 0, 1, ... *)
Fixpoint search (r : regex) (atStart : bool) (s : jsstring) : bool :=
  matchHere r atStart s ||
  match s with
  | [] => false
  | _ :: s' => search r false s'
  end.

(** [RegExp.prototype.test] of a regex without [g] or [y] flag. *)
Definition test (r : regex) (s : jsstring) : bool := search r true s.

(** A sequence of patterns, and a literal run of characters. *)
Definition seqs (rs : list regex) : regex := fold_right Seq Empty rs.

Definition lit (s : string) : regex := seqs (map Chr (str s)).

Definition chr (a : ascii) : regex := Chr (N_of_ascii a).

End RegExp.
Import RegExp.

(** ** Values

    The object and array literals of the source, and thrown errors
    ([new Error(message)]). *)

Inductive json : Type :=
| JBool (b : bool)
| JNum (n : N)
| JStr (s : jsstring)
| JArr (items : list json)
| JObj (fields : list (jsstring * json)).

Inductive Exn : Type :=
| Error (message : jsstring).

Definition message (e : Exn) : jsstring :=
  match e with Error m => m end.

(** The outcome of a call that may throw (or of a promise that may
    reject). *)
Definition result (A : Type) : Type := Exn + A.

(** ** ReactPreset ([src/bundler/presets/react/ReactPreset.ts]) *)

(** A module of the bundle; [mapTransformers] reads its [filepath]. *)
Record Module_ : Type := { filepath : jsstring; source : jsstring }.

(** A transformer binding [[name, options]]. *)
Definition TransformerBinding : Type := (jsstring * json)%type.

Module ReactPreset.

(** [/^(?!\/node_modules\/).*\.(((m|c)?jsx?)|tsx)$/] *)
Definition re_jsx : regex :=
  seqs [ Bol; NotAhead (lit "/node_modules/"); DotStar; chr ".";
         Alt (seqs [Opt (Alt (chr "m") (chr "c")); chr "j"; chr "s"; Opt (chr "x")])
             (lit "tsx");
         Eol ].

(** [/\.(m|c)?(t|j)sx?$/] *)
Definition re_script : regex :=
  seqs [ chr "."; Opt (Alt (chr "m") (chr "c")); Alt (chr "t") (chr "j");
         chr "s"; Opt (chr "x"); Eol ].

(** [/\.css$/] *)
Definition re_css : regex := seqs [ chr "."; lit "css"; Eol ].

(** The part of [re_jsx] after [.*]. *)
Definition re_jsx_extension : regex :=
  seqs [ chr ".";
         Alt (seqs [Opt (Alt (chr "m") (chr "c")); chr "j"; chr "s"; Opt (chr "x")])
             (lit "tsx");
         Eol ].

(** The endings that [re_jsx] and [re_script] accept. *)
Definition jsx_extensions : list jsstring :=
  map str [ ".js"; ".jsx"; ".mjs"; ".mjsx"; ".cjs"; ".cjsx"; ".tsx" ]%string.

Definition script_extensions : list jsstring :=
  map str [ ".ts"; ".tsx"; ".js"; ".jsx"; ".mts"; ".mtsx"; ".mjs"; ".mjsx";
            ".cts"; ".ctsx"; ".cjs"; ".cjsx" ]%string.

(** The three dispatch rules, in the order the source tries them. *)
Definition rule_jsx (path : jsstring) : bool := test re_jsx path.

Definition rule_script (path : jsstring) : bool :=
  test re_script path && negb (endsWith path (str ".d.ts")).

Definition rule_css (path : jsstring) : bool := test re_css path.

Definition react_preset_option : json :=
  JArr [ JArr [ JStr (str "react");
                JObj [ (str "runtime", JStr (str "automatic")) ] ] ].

Definition babel_refresh_options : json :=
  JObj [ (str "presets", react_preset_option);
         (str "plugins",
          JArr [ JArr [ JStr (str "react-refresh/babel");
                        JObj [ (str "skipEnvCheck", JBool true) ] ] ]) ].

Definition babel_options : json :=
  JObj [ (str "presets", react_preset_option) ].

Definition jsx_chain : list TransformerBinding :=
  [ (str "babel-transformer", babel_refresh_options);
    (str "react-refresh-transformer", JObj []) ].

Definition script_chain : list TransformerBinding :=
  [ (str "babel-transformer", babel_options) ].

Definition css_chain : list TransformerBinding :=
  [ (str "css-transformer", JObj []);
    (str "style-transformer", JObj []) ].

Definition mapTransformers (module : Module_) : result (list TransformerBinding) :=
  if rule_jsx (filepath module) then inr jsx_chain
  else if rule_script (filepath module) then inr script_chain
  else if rule_css (filepath module) then inr css_chain
  else inl (Error (str "No transformer for " ++ filepath module)).

(** The number of transformers in the chain of a path, [None] when
    [mapTransformers] throws. *)
Definition chainLength (path : string) : option nat :=
  match mapTransformers {| filepath := str path; source := [] |} with
  | inr chain => Some (length chain)
  | inl _ => None
  end.

(** [DepMap] (from [module-registry], a type declaration): package
    name to version range. *)
Abbreviation DepMap := (gmap jsstring jsstring).

(** Truthiness of [dependencies[key]]: [undefined] and the empty
    string are falsy. *)
Definition truthy (v : option jsstring) : bool :=
  match v with
  | Some (_ :: _) => true
  | Some [] | None => false
  end.

(** The source assigns into the object it was given and returns
    that same object; the function below gives the contents of the
    object after the call. *)
Definition augmentDependencies (dependencies : DepMap) : DepMap :=
  let dependencies :=
    if negb (truthy (dependencies !! str "react-refresh"))
    then <[ str "react-refresh" := str "^0.11.0" ]> dependencies
    else dependencies in
  <[ str "core-js" := str "3.22.7" ]> dependencies.

(** *** init *)

Inductive Transformer : Type :=
| BabelTransformer
| ReactRefreshTransformer
| CSSTransformer
| StyleTransformer.

#[global] Instance Transformer_eq_dec : EqDecision Transformer.
Proof. solve_decision. Defined.

(** A promise that has settled: when (in turns of the event loop)
    and how. *)
Record Settled (A : Type) : Type :=
  { settledAt : nat; outcome : result A }.
Arguments settledAt {A} _.
Arguments outcome {A} _.

(** The rejection that [Promise.all] reports: that of the promise
    that rejected first (the earlier array element on a tie). *)
Fixpoint firstRejection {A} (ps : list (Settled A)) : option (nat * Exn) :=
  match ps with
  | [] => None
  | p :: ps' =>
      match outcome p, firstRejection ps' with
      | inl e, Some (t', e') =>
          if (settledAt p <=? t')%nat then Some (settledAt p, e) else Some (t', e')
      | inl e, None => Some (settledAt p, e)
      | inr _, r => r
      end
  end.

Fixpoint fulfilled {A} (ps : list (Settled A)) : list A :=
  match ps with
  | [] => []
  | p :: ps' =>
      match outcome p with
      | inr a => a :: fulfilled ps'
      | inl _ => fulfilled ps'
      end
  end.

(** [Promise.all]: fulfils with all the values once every promise
    has fulfilled, rejects as soon as one rejects. *)
Definition Promise_all {A} (ps : list (Settled A)) : result (list A) :=
  match firstRejection ps with
  | Some (_, e) => inl e
  | None => inr (fulfilled ps)
  end.

Section Init.

(** The base class [Preset] ([presets/Preset]) is not among the
    sources.  Its [init] is taken by its outcome, and a call of
    [registerTransformer] by the promise it returns. *)
Variable super_init : result unit.
Variable registration : Transformer -> Settled unit.

(** Modelled from the spec: [Preset.registerTransformer] and the
    preset's registry of transformer instances ([presets/Preset] is
    not among the sources).  A registration that succeeds adds its
    transformer to the preset's registry; one that fails adds
    nothing. *)
Definition registerTransformer (t : Transformer)
  : list Transformer * Settled unit :=
  match outcome (registration t) with
  | inr _ => ([t], registration t)
  | inl _ => ([], registration t)
  end.

(** [init]: the registry once every registration has settled, and
    the outcome of the promise [init] returns.  The four calls are
    all made before any is awaited. *)
Definition init (registry : list Transformer)
  : list Transformer * result unit :=
  match super_init with
  | inl e => (registry, inl e)
  | inr _ =>
      let calls :=
        map registerTransformer
            [ BabelTransformer; ReactRefreshTransformer;
              CSSTransformer; StyleTransformer ] in
      (registry ++ concat (map fst calls),
       match Promise_all (map snd calls) with
       | inl e => inl e
       | inr _ => inr tt
       end)
  end.

End Init.

End ReactPreset.

(** ** Effects

    What a run of the orchestrator does that the host or the log can
    observe, in the order it happens: messages sent on the bus, log
    lines, calls made on the bundler and on the window. *)

Inductive LogLevel : Type := LDebug | LInfo | LWarn | LError.

Inductive LogArg : Type :=
| LText (text : jsstring)         (* a string *)
| LElapsed (text : jsstring)      (* [text] followed by an elapsed time in ms *)
| LExn (e : Exn).                 (* a caught error *)

Inductive Event : Type :=
| Sent (type : jsstring) (payload : option json)
| Logged (level : LogLevel) (arg : LogArg)
| SetLogLevel (level : N)
| Call_configureFS (hasAsyncFileResolver : bool)
| Call_resetModules
| Call_integrations_load (key : jsstring)
| Call_initPreset (template : jsstring)
| Call_compile (files : list Module_)
| Call_replaceHTML
| Call_evaluate
| Call_reload.

(** A computation over a state [S] that emits events and either
    returns or throws. *)
Definition Eff (S A : Type) : Type := S -> list Event * S * result A.

Module Eff.

Section WithState.
Context {S : Type}.

Definition ret {A} (a : A) : Eff S A := fun s => ([], s, inr a).

Definition throw {A} (e : Exn) : Eff S A := fun s => ([], s, inl e).

Definition bind {A B} (m : Eff S A) (f : A -> Eff S B) : Eff S B :=
  fun s =>
    match m s with
    | (tr, s', inl e) => (tr, s', inl e)
    | (tr, s', inr a) =>
        let '(tr', s'', r) := f a s' in (tr ++ tr', s'', r)
    end.

(** [try { m } catch (e) { h e }], and [promise.catch(h)]. *)
Definition try_catch {A} (m : Eff S A) (h : Exn -> Eff S A) : Eff S A :=
  fun s =>
    match m s with
    | (tr, s', inl e) =>
        let '(tr', s'', r) := h e s' in (tr ++ tr', s'', r)
    | (tr, s', inr a) => (tr, s', inr a)
    end.

(** [promise.finally(h)]: [h] runs either way; the outcome is that of
    the promise unless [h] throws. *)
Definition finally {A} (m : Eff S A) (h : Eff S unit) : Eff S A :=
  fun s =>
    let '(tr, s', r) := m s in
    match h s' with
    | (tr', s'', inl e) => (tr ++ tr', s'', inl e)
    | (tr', s'', inr _) => (tr ++ tr', s'', r)
    end.

Definition emit (ev : Event) : Eff S unit := fun s => ([ev], s, inr tt).

(** The outcome of a call on a collaborator, awaited. *)
Definition await {A} (r : result A) : Eff S A := fun s => ([], s, r).

Definition get : Eff S S := fun s => ([], s, inr s).

Definition put (s : S) : Eff S unit := fun _ => ([], s, inr tt).

End WithState.

End Eff.

Declare Scope eff_scope.
Delimit Scope eff_scope with eff.
Notation "x <- m ;; k" := (Eff.bind m (fun x => k))
  (at level 100, m at next level, right associativity) : eff_scope.
Notation "m ;; k" := (Eff.bind m (fun _ => k))
  (at level 100, right associativity) : eff_scope.

(** [messageBus.sendMessage(type, payload)] and the logger. *)
Definition sendMessage {S} (type : string) (payload : option json) : Eff S unit :=
  Eff.emit (Sent (str type) payload).

Definition logger_debug {S} (text : string) : Eff S unit :=
  Eff.emit (Logged LDebug (LText (str text))).

Definition logger_info {S} (text : string) : Eff S unit :=
  Eff.emit (Logged LInfo (LText (str text))).

Definition logger_info_elapsed {S} (text : string) : Eff S unit :=
  Eff.emit (Logged LInfo (LElapsed (str text))).

Definition logger_warn {S} (text : jsstring) : Eff S unit :=
  Eff.emit (Logged LWarn (LText text)).

Definition logger_error {S} (e : Exn) : Eff S unit :=
  Eff.emit (Logged LError (LExn e)).

Definition logger_setLogLevel {S} (level : N) : Eff S unit :=
  Eff.emit (SetLogLevel level).

(** ** The preset registry ([src/bundler/presets/registry.ts]) *)

Module Registry.

Inductive PresetClass : Type := ReactPresetClass | SolidPresetClass.

(** A preset object: its class, and whether it is the instance held
    by [PRESET_MAP] or one made by a later [new]. *)
Record Preset : Type :=
  { presetClass : PresetClass; heldByMap : bool }.

Definition new_ReactPreset : Preset :=
  {| presetClass := ReactPresetClass; heldByMap := false |}.

Definition PRESET_MAP : gmap jsstring Preset :=
  list_to_map
    [ (str "react", {| presetClass := ReactPresetClass; heldByMap := true |});
      (str "solid", {| presetClass := SolidPresetClass; heldByMap := true |}) ].

Local Open Scope eff_scope.

Definition getPreset (presetName : jsstring) : Eff unit Preset :=
  match PRESET_MAP !! presetName with
  | None =>
      logger_warn (str "Unknown preset " ++ presetName
                     ++ str ", falling back to React") ;;
      Eff.ret new_ReactPreset
  | Some foundPreset => Eff.ret foundPreset
  end.

End Registry.

(** ** The orchestrator ([src/index.ts]) *)

Module Index.

(** [ICompileRequest] (from [protocol/message-types], a type
    declaration), also the shape of a message of the parent. *)
Record ICompileRequest : Type :=
  { type : jsstring;
    modules : list (jsstring * Module_);     (* in property order *)
    template : jsstring;
    logLevel : option N;
    hasFileResolver : bool;
    reactDevTools : option jsstring }.

(** What [compile] resolves to: nothing, or the function [evaluate],
    given by what a call of it does. *)
Definition Evaluate : Type := result unit.

(** The collaborators of the orchestrator ([bundler/bundler],
    [errors/util], [integrations/integrations], [utils/document]; none
    is among the sources), by what their calls answer during one
    cycle.  [integrations.load] either throws or returns a promise;
    the promise is not awaited and its [.catch(logger.error)] runs
    apart from the cycle.  Status changes that the bundler fires on
    its own, which the listener registered by [init] forwards, are not
    made by [handleCompile] and are left out. *)
Record World : Type :=
  { isFirstLoad : bool;                                  (* bundler.isFirstLoad *)
    errorMessage : Exn -> json;                          (* errors/util *)
    integrations_load : jsstring -> result unit;         (* throws, or returns its promise *)
    initPreset : jsstring -> result unit;                (* bundler.initPreset, awaited *)
    compile : list Module_ -> result (option Evaluate);  (* bundler.compile, awaited *)
    getDocumentHeight : N }.                             (* utils/document *)

(** The fields of [SandpackInstance] that change.  [pending] is the
    callback held by [compileDebouncer], given by its request. *)
Record SandpackInstance : Type :=
  { lastHeight : N;
    pending : option ICompileRequest }.

Local Open Scope eff_scope.

Definition status (value : string) : option json :=
  Some (JObj [ (str "status", JStr (str value)) ]).

Definition sendResizeEvent (w : World) : Eff SandpackInstance unit :=
  let height := getDocumentHeight w in
  this <- Eff.get ;;
  (if negb (N.eqb (lastHeight this) height)
   then sendMessage "resize" (Some (JObj [ (str "height", JNum height) ]))
   else Eff.ret tt) ;;
  Eff.put {| lastHeight := height; pending := pending this |}.

Definition Object_values {A} (o : list (jsstring * A)) : list A := map snd o.

Definition handleCompile (w : World) (compileRequest : ICompileRequest)
  : Eff SandpackInstance unit :=
  match logLevel compileRequest with
  | Some level => logger_setLogLevel level
  | None => Eff.ret tt
  end ;;
  logger_debug "Configuring FileSystem..." ;;
  Eff.emit (Call_configureFS (hasFileResolver compileRequest)) ;;
  sendMessage "start" (Some (JObj [ (str "firstLoad", JBool (isFirstLoad w)) ])) ;;
  sendMessage "status" (status "initializing") ;;
  (if isFirstLoad w then Eff.emit Call_resetModules else Eff.ret tt) ;;
  (* -- Load integrations *)
  logger_info "Loading integration..." ;;
  match reactDevTools compileRequest with
  | Some (c :: v) =>
      let key := str "react-devtools-" ++ c :: v in
      Eff.try_catch
        (Eff.emit (Call_integrations_load key) ;;
         Eff.await (integrations_load w key))
        (fun err => logger_error err)
  | Some [] | None => Eff.ret tt
  end ;;
  logger_info_elapsed "Finished loading integration in " ;;
  (* --- Load preset *)
  logger_info "Loading preset and transformers..." ;;
  Eff.emit (Call_initPreset (template compileRequest)) ;;
  Eff.await (initPreset w (template compileRequest)) ;;
  logger_info_elapsed "Finished loading preset in " ;;
  (* --- Bundling / Compiling *)
  logger_info "Started bundling" ;;
  let files := Object_values (modules compileRequest) in
  evaluate <-
    Eff.finally
      (Eff.try_catch
         (val <- (Eff.emit (Call_compile files) ;; Eff.await (compile w files)) ;;
          sendMessage "done" (Some (JObj [ (str "compilatonError", JBool false) ])) ;;
          Eff.ret val)
         (fun error =>
            logger_error error ;;
            sendMessage "action" (Some (errorMessage w error)) ;;
            sendMessage "done" (Some (JObj [ (str "compilatonError", JBool true) ])) ;;
            Eff.ret None))
      (logger_info_elapsed "Finished bundling in ") ;;
  (* --- Replace HTML *)
  Eff.emit Call_replaceHTML ;;
  (* --- Evaluation *)
  match evaluate with
  | Some evaluate =>
      sendMessage "status" (status "evaluating") ;;
      Eff.try_catch
        (logger_info "Start evaluation" ;;
         Eff.emit Call_evaluate ;;
         Eff.await evaluate ;;
         logger_info_elapsed "Finished evaluation in " ;;
         sendResizeEvent w ;;
         sendMessage "success" None)
        (fun error =>
           logger_error error ;;
           sendMessage "action" (Some (errorMessage w error)))
  | None => Eff.ret tt
  end ;;
  sendMessage "status" (status "idle").

(** Modelled from the spec: [Debouncer] ([utils/Debouncer] is not
    among the sources).  [debounce] replaces the pending callback;
    [Debouncer_fire] is the timer running the pending callback, which
    for this instance is always
    [() => this.handleCompile(message).catch(logger.error)]. *)
Definition debounce (message : ICompileRequest) : Eff SandpackInstance unit :=
  this <- Eff.get ;;
  Eff.put {| lastHeight := lastHeight this; pending := Some message |}.

Definition Debouncer_fire (w : World) : Eff SandpackInstance unit :=
  this <- Eff.get ;;
  match pending this with
  | Some message =>
      Eff.put {| lastHeight := lastHeight this; pending := None |} ;;
      Eff.try_catch (handleCompile w message) (fun e => logger_error e)
  | None => Eff.ret tt
  end.

Definition handleParentMessage (message : ICompileRequest)
  : Eff SandpackInstance unit :=
  if eqb (type message) (str "compile") then debounce message
  else if eqb (type message) (str "refresh") then
    Eff.emit Call_reload ;;
    sendMessage "refresh" None
  else Eff.ret tt.

(** One compile cycle as the host sees it: a message of the parent,
    then the debounce timer. *)
Definition cycle (w : World) (message : ICompileRequest)
  : Eff SandpackInstance unit :=
  handleParentMessage message ;;
  Debouncer_fire w.

(** *** Reading a trace *)

(** The events and the outcome of a computation started on the
    instance [this]. *)
Definition traceOf {A} (m : Eff SandpackInstance A) (this : SandpackInstance)
  : list Event := fst (fst (m this)).

Definition outcomeOf {A} (m : Eff SandpackInstance A) (this : SandpackInstance)
  : result A := snd (m this).

(** A message on the bus: its type and its payload. *)
Definition Message : Type := (jsstring * option json)%type.

Definition msg (type : string) (payload : option json) : Message :=
  (str type, payload).

(** The messages sent, in order. *)
Fixpoint sent (tr : list Event) : list Message :=
  match tr with
  | [] => []
  | Sent t p :: tr' => (t, p) :: sent tr'
  | _ :: tr' => sent tr'
  end.

(** The calls made on the bundler and on [evaluate], in order. *)
Definition isBundlerCall (ev : Event) : bool :=
  match ev with
  | Call_configureFS _ | Call_resetModules | Call_initPreset _
  | Call_compile _ | Call_replaceHTML | Call_evaluate => true
  | _ => false
  end.

Definition bundlerCalls (tr : list Event) : list Event :=
  List.filter isBundlerCall tr.

(** [payload[key]] of an object payload. *)
Fixpoint field (key : jsstring) (fields : list (jsstring * json)) : option json :=
  match fields with
  | [] => None
  | (k, v) :: fields' => if eqb k key then Some v else field key fields'
  end.

Definition getField (key : string) (payload : option json) : option json :=
  match payload with
  | Some (JObj fields) => field (str key) fields
  | _ => None
  end.

Definition hasType (type : string) (m : Message) : bool := eqb (fst m) (str type).

(** The messages of one type, and how many there are. *)
Definition ofType (type : string) (ms : list Message) : list Message :=
  List.filter (hasType type) ms.

Definition countType (type : string) (ms : list Message) : nat :=
  length (ofType type ms).

(** The status values sent, in order. *)
Fixpoint statusValues (ms : list Message) : list jsstring :=
  match ms with
  | [] => []
  | m :: ms' =>
      match hasType "status" m, getField "status" (snd m) with
      | true, Some (JStr v) => v :: statusValues ms'
      | _, _ => statusValues ms'
      end
  end.

(** How many times [status=idle] was sent. *)
Definition idleCount (ms : list Message) : nat :=
  length (List.filter (eqb (str "idle")) (statusValues ms)).

(** [l1] is a subsequence of [l2]. *)
Fixpoint subsequence (l1 l2 : list jsstring) : bool :=
  match l1, l2 with
  | [], _ => true
  | _ :: _, [] => false
  | x :: l1', y :: l2' =>
      if eqb x y then subsequence l1' l2' else subsequence l1 l2'
  end.

(** *** The messages of a cycle, by the answers of the collaborators *)

Definition done (failed : bool) : Message :=
  msg "done" (Some (JObj [ (str "compilatonError", JBool failed) ])).

Definition sentAfterCompile (w : World) (this : SandpackInstance)
  (compiled : result (option Evaluate)) : list Message :=
  match compiled with
  | inl error => [ msg "action" (Some (errorMessage w error)); done true ]
  | inr None => [ done false ]
  | inr (Some (inl error)) =>
      [ done false; msg "status" (status "evaluating");
        msg "action" (Some (errorMessage w error)) ]
  | inr (Some (inr _)) =>
      [ done false; msg "status" (status "evaluating") ]
      ++ (if N.eqb (lastHeight this) (getDocumentHeight w) then []
          else [ msg "resize"
                   (Some (JObj [ (str "height", JNum (getDocumentHeight w)) ])) ])
      ++ [ msg "success" None ]
  end.

Definition callsAfterCompile (compiled : result (option Evaluate)) : list Event :=
  match compiled with
  | inr (Some _) => [ Call_replaceHTML; Call_evaluate ]
  | _ => [ Call_replaceHTML ]
  end.

End Index.

(** ** Scenarios

    Concrete requests and answers of the collaborators, on which the
    cycle is run below. *)

Module Scenario.
Import Index.

(** A stand-in for [errorMessage] of [errors/util]: the payload of a
    [show-error] action carrying the message of the error. *)
Definition showError (e : Exn) : json :=
  JObj [ (str "action", JStr (str "show-error"));
         (str "message", JStr (message e)) ].

(** [{type: 'compile', modules: {'/a.jsx': ...}, template: 'react'}] *)
Definition request : ICompileRequest :=
  {| type := str "compile";
     modules := [ (str "/a.jsx",
                   {| filepath := str "/a.jsx"; source := str "<App/>" |}) ];
     template := str "react";
     logLevel := None;
     hasFileResolver := false;
     reactDevTools := None |}.

Definition fresh : SandpackInstance := {| lastHeight := 0; pending := None |}.

(** Every collaborator succeeds. *)
Definition allFine : World :=
  {| isFirstLoad := true;
     errorMessage := showError;
     integrations_load := fun _ => inr tt;
     initPreset := fun _ => inr tt;
     compile := fun _ => inr (Some (inr tt));
     getDocumentHeight := 600 |}.

(** [bundler.initPreset] rejects. *)
Definition presetFails : World :=
  {| isFirstLoad := true;
     errorMessage := showError;
     integrations_load := fun _ => inr tt;
     initPreset := fun _ => inl (Error (str "Failed to load transformer"));
     compile := fun _ => inr (Some (inr tt));
     getDocumentHeight := 600 |}.

(** [bundler.compile] rejects. *)
Definition compileFails : World :=
  {| isFirstLoad := true;
     errorMessage := showError;
     integrations_load := fun _ => inr tt;
     initPreset := fun _ => inr tt;
     compile := fun _ => inl (Error (str "Unexpected token"));
     getDocumentHeight := 600 |}.

(** [compile] succeeds and the call of [evaluate] throws. *)
Definition evaluateThrows : World :=
  {| isFirstLoad := true;
     errorMessage := showError;
     integrations_load := fun _ => inr tt;
     initPreset := fun _ => inr tt;
     compile := fun _ => inr (Some (inl (Error (str "App is not defined"))));
     getDocumentHeight := 600 |}.

(** The registration of the CSS transformer rejects, the other three
    succeed. *)
Definition cssRegistrationFails (t : ReactPreset.Transformer)
  : ReactPreset.Settled unit :=
  match t with
  | ReactPreset.CSSTransformer =>
      {| ReactPreset.settledAt := 1;
         ReactPreset.outcome := inl (Error (str "css-transformer failed to load")) |}
  | _ => {| ReactPreset.settledAt := 2; ReactPreset.outcome := inr tt |}
  end.

(** A bundler whose [initPreset] answers what [ReactPreset.init]
    answers under [cssRegistrationFails]. *)
Definition cssRegistrationFailsWorld : World :=
  {| isFirstLoad := true;
     errorMessage := showError;
     integrations_load := fun _ => inr tt;
     initPreset := fun _ => snd (ReactPreset.init (inr tt) cssRegistrationFails []);
     compile := fun _ => inr (Some (inr tt));
     getDocumentHeight := 600 |}.

End Scenario.

(** ** More of the orchestrator

    The resize polling of [src/index.ts]: [sendResizeEvent] run by the
    interval that [initResizeEvent] sets. *)

Module Polling.
Import Index.

Local Open Scope eff_scope.

(** The instance a computation leaves behind. *)
Definition stateOf {A} (m : Eff SandpackInstance A) (this : SandpackInstance)
  : SandpackInstance := snd (fst (m this)).

(** The same collaborators, with the document at another height, and
    with another answer of [integrations.load]. *)
Definition withHeight (w : World) (height : N) : World :=
  {| isFirstLoad := isFirstLoad w;
     errorMessage := errorMessage w;
     integrations_load := integrations_load w;
     initPreset := initPreset w;
     compile := compile w;
     getDocumentHeight := height |}.

Definition withIntegrations (w : World) (load : jsstring -> result unit)
  : World :=
  {| isFirstLoad := isFirstLoad w;
     errorMessage := errorMessage w;
     integrations_load := load;
     initPreset := initPreset w;
     compile := compile w;
     getDocumentHeight := getDocumentHeight w |}.

(** The interval set by [initResizeEvent] runs [sendResizeEvent] again
    and again; [heights] is what [getDocumentHeight] answers at each
    run. *)
Fixpoint poll (w : World) (heights : list N) : Eff SandpackInstance unit :=
  match heights with
  | [] => Eff.ret tt
  | height :: heights' =>
      sendResizeEvent (withHeight w height) ;; poll w heights'
  end.

(** The heights carried by the [resize] messages, in order. *)
Fixpoint resizeHeights (ms : list Message) : list N :=
  match ms with
  | [] => []
  | m :: ms' =>
      match hasType "resize" m, getField "height" (snd m) with
      | true, Some (JNum h) => h :: resizeHeights ms'
      | _, _ => resizeHeights ms'
      end
  end.

(** The elements of [heights] that differ from the one before them,
    [previous] standing before the first. *)
Fixpoint changes (previous : N) (heights : list N) : list N :=
  match heights with
  | [] => []
  | h :: heights' =>
      if N.eqb previous h then changes h heights'
      else h :: changes h heights'
  end.

(** No element equals the one before it. *)
Fixpoint adjacentDistinct (previous : N) (l : list N) : bool :=
  match l with
  | [] => true
  | h :: l' => negb (N.eqb previous h) && adjacentDistinct h l'
  end.

(** *** The polling timer

    [setInterval] and [clearInterval] of the window, by the handles of
    the intervals that are live: [setInterval] answers a handle
    greater than zero that no live interval has, [clearInterval] ends
    the interval of a handle. *)
Record Window : Type :=
  { intervals : list positive;      (* the live intervals, newest first *)
    nextHandle : positive }.

Definition setInterval (win : Window) : positive * Window :=
  (nextHandle win,
   {| intervals := nextHandle win :: intervals win;
      nextHandle := Pos.succ (nextHandle win) |}).

Definition clearInterval (handle : positive) (win : Window) : Window :=
  {| intervals :=
       List.filter (fun h => negb (Pos.eqb h handle)) (intervals win);
     nextHandle := nextHandle win |}.

(** [initResizeEvent], on the field [resizePollingTimer] and the
    window: a timer already held is cleared, then a new interval is
    set and held. *)
Definition initResizeEvent (st : option positive * Window)
  : option positive * Window :=
  let '(resizePollingTimer, win) := st in
  let win :=
    match resizePollingTimer with
    | Some handle => clearInterval handle win
    | None => win
    end in
  let '(handle, win) := setInterval win in
  (Some handle, win).

(** [initResizeEvent] called [n] times. *)
Fixpoint initResizeEvents (n : nat) (st : option positive * Window)
  : option positive * Window :=
  match n with
  | O => st
  | S n' => initResizeEvents n' (initResizeEvent st)
  end.

End Polling.

(** ** Endings of paths *)

Module Endings.

(** No ending of [exts] is compatible with the ending [a]. *)
Definition incompatible (a : jsstring) (exts : list jsstring) : bool :=
  forallb (fun b => negb (endsWith a b || endsWith b a)) exts.

(** The script endings that the first pattern of the react preset does
    not accept. *)
Definition ts_only_extensions : list jsstring :=
  map str [ ".ts"; ".mts"; ".cts"; ".mtsx"; ".ctsx" ]%string.

End Endings.

(** ** The status listener

    [init] (lines 105-111) registers a listener on the bundler that
    puts every status change of the bundler on the bus. *)

Module Forwarding.
Import Index.

(** The listener that [init] registers on the bundler (lines 108-110):
    [(newStatus) => sendMessage('status', { status: newStatus })]. *)
Definition onStatusChange (newStatus : jsstring) : Event :=
  Sent (str "status") (Some (JObj [ (str "status", JStr newStatus) ])).

(** What the bus carries during a run: the events of the run, and
    after each call on the bundler the status changes that the bundler
    fires during that call, forwarded by the listener.  [fires] gives
    the status changes of each call. *)
Fixpoint onBus (fires : Event -> list jsstring) (tr : list Event)
  : list Event :=
  match tr with
  | [] => []
  | ev :: tr' =>
      ev :: (if isBundlerCall ev then map onStatusChange (fires ev) else [])
         ++ onBus fires tr'
  end.

(** The messages sent and the calls on the bundler, in the order they
    happen. *)
Definition isSentOrCall (ev : Event) : bool :=
  match ev with
  | Sent _ _ => true
  | _ => isBundlerCall ev
  end.

Definition sentAndCalls (tr : list Event) : list Event :=
  List.filter isSentOrCall tr.

(** What one event puts among the status values of the bus. *)
Definition statusesAt (fires : Event -> list jsstring) (ev : Event)
  : list jsstring :=
  statusValues (sent [ev]) ++ (if isBundlerCall ev then fires ev else []).

(** A bundler that fires the status [transpiling] while it compiles,
    and no other. *)
Definition transpilingDuringCompile (ev : Event) : list jsstring :=
  match ev with
  | Call_compile _ => [ str "transpiling" ]
  | _ => []
  end.

End Forwarding.

(** * Properties *)

(** ** Strings and regular expressions *)

Lemma startsWith_app (s p : jsstring) :
  startsWith s p = true -> exists t, s = p ++ t.
Proof.
  revert s; induction p as [|c p IH]; intros s H.
  - exists s; reflexivity.
  - destruct s as [|d s]; simpl in H; [discriminate|].
    apply andb_true_iff in H as [Hc Hs].
    apply N.eqb_eq in Hc; subst d.
    destruct (IH _ Hs) as [t ->]. exists t; reflexivity.
Qed.

(** A pattern that opens with [^] matches at index 0 only. *)
Lemma search_Bol_later (r : regex) (s : jsstring) :
  search (Seq Bol r) false s = false.
Proof. induction s as [|c s IH]; simpl; [reflexivity | exact IH]. Qed.

Lemma test_Bol (r : regex) (s : jsstring) :
  test (Seq Bol r) s = matchHere (Seq Bol r) true s.
Proof.
  unfold test. destruct s as [|c s]; simpl.
  - apply orb_false_r.
  - rewrite search_Bol_later. apply orb_false_r.
Qed.

(** *** What the three patterns accept *)

Section RegexSpecs.
Import ReactPreset.

(** The search succeeds when the pattern matches at some index. *)
Lemma search_false_spec (r : regex) (s : jsstring) :
  search r false s = true <->
  exists p t, s = p ++ t /\ matchHere r false t = true.
Proof.
  induction s as [|c s IH]; simpl.
  - rewrite orb_false_r. split.
    + intros H. exists [], []. auto.
    + intros (p & t & Hs & Hm). symmetry in Hs.
      apply app_eq_nil in Hs as [-> ->]. exact Hm.
  - rewrite orb_true_iff, IH. split.
    + intros [H|(p & t & -> & Hm)].
      * exists [], (c :: s). auto.
      * exists (c :: p), t. auto.
    + intros ([|d p] & t & Hs & Hm); simpl in Hs.
      * subst t. left. exact Hm.
      * inversion Hs; subst. right. eauto.
Qed.

(** For a pattern that does not look at the start of the input. *)
Lemma test_spec (r : regex) (s : jsstring) :
  (forall t, matchHere r true t = matchHere r false t) ->
  test r s = true <-> exists p t, s = p ++ t /\ matchHere r false t = true.
Proof.
  intros Hb. rewrite <- search_false_spec. unfold test.
  destruct s as [|c s]; simpl; rewrite Hb; reflexivity.
Qed.

Lemma endsWith_spec (s suffix : jsstring) :
  endsWith s suffix = true <-> exists p, s = p ++ suffix.
Proof.
  unfold endsWith, eqb. split.
  - destruct (Nat.ltb_spec (length s) (length suffix)) as [Hlt|Hle];
      [discriminate|].
    intros H. apply bool_decide_eq_true in H.
    exists (firstn (length s - length suffix) s).
    rewrite <- (firstn_skipn (length s - length suffix) s) at 1.
    f_equal. exact H.
  - intros [p ->]. rewrite length_app.
    destruct (Nat.ltb_spec (length p + length suffix) (length suffix))
      as [Hlt|Hle]; [lia|].
    apply bool_decide_eq_true.
    replace (length p + length suffix - length suffix)%nat with (length p) by lia.
    rewrite skipn_app, Nat.sub_diag, skipn_all. reflexivity.
Qed.

Ltac crack H :=
  repeat first
    [ rewrite andb_true_iff in H
    | rewrite orb_true_iff in H
    | rewrite N.eqb_eq in H ].

Lemma matchHere_css (b : bool) (t : jsstring) :
  matchHere re_css b t = true <-> t = str ".css".
Proof.
  split; [|intros ->; reflexivity].
  destruct t as [|c1 [|c2 [|c3 [|c4 [|c5 t]]]]]; cbn; intros H; crack H;
    try discriminate; try (intuition discriminate).
  destruct H as (<- & <- & <- & <- & _). reflexivity.
Qed.

(** [/\.css$/] accepts the paths that end in [.css]. *)
Lemma rule_css_spec (path : jsstring) :
  rule_css path = true <-> exists p, path = p ++ str ".css".
Proof.
  unfold rule_css. rewrite test_spec.
  - split.
    + intros (p & t & -> & H). apply matchHere_css in H as ->. eauto.
    + intros [p ->]. exists p, (str ".css"). auto.
  - intros t. apply eq_true_iff_eq. rewrite !matchHere_css. reflexivity.
Qed.

Lemma matchHere_script (b : bool) (t : jsstring) :
  matchHere re_script b t = true <-> In t script_extensions.
Proof.
  split.
  - destruct t as [|c1 [|c2 [|c3 [|c4 [|c5 [|c6 t]]]]]]; cbn; intros H; crack H;
    try discriminate; try (intuition discriminate).
    all: intuition (subst; try discriminate;
                    vm_compute; repeat ((left; reflexivity) || right)).
  - vm_compute. intuition (subst; reflexivity).
Qed.

(** The second rule accepts the paths that end in one of the twelve
    script endings and not in [.d.ts]. *)
Lemma rule_script_spec (path : jsstring) :
  rule_script path = true <->
  (exists p ext, In ext script_extensions /\ path = p ++ ext)
  /\ ~ (exists p, path = p ++ str ".d.ts").
Proof.
  unfold rule_script.
  rewrite andb_true_iff, negb_true_iff, <- not_true_iff_false, endsWith_spec.
  rewrite test_spec.
  - split; intros [H Hd]; (split; [|exact Hd]).
    + destruct H as (p & t & -> & H). apply matchHere_script in H. eauto.
    + destruct H as (p & ext & Hin & ->). exists p, ext.
      split; [reflexivity|]. apply matchHere_script. exact Hin.
  - intros t. apply eq_true_iff_eq. rewrite !matchHere_script. reflexivity.
Qed.

(** A literal run matches a prefix of the input. *)
Lemma exec_lit (cs s : jsstring) (b : bool) :
  exec (seqs (map Chr cs)) b s (fun _ _ => true) = startsWith s cs.
Proof.
  revert s b; induction cs as [|c cs IH]; intros s b; [reflexivity|].
  destruct s as [|d s]; [reflexivity|]. cbn. rewrite IH. reflexivity.
Qed.

(** [.*] consumes a prefix without line terminator. *)
Lemma dotStar_spec (b : bool) (s : jsstring) (k : bool -> jsstring -> bool) :
  dotStar b s k = true <->
  exists p t, s = p ++ t /\ noLineTerminator p = true
              /\ k (match p with [] => b | _ :: _ => false end) t = true.
Proof.
  revert b; induction s as [|c s IH]; intros b; simpl.
  - rewrite orb_false_r. split.
    + intros H. exists [], []. auto.
    + intros (p & t & Hs & _ & Hk). symmetry in Hs.
      apply app_eq_nil in Hs as [-> ->]. exact Hk.
  - rewrite orb_true_iff, andb_true_iff, IH. split.
    + intros [H|(Hc & p & t & -> & Hp & Hk)].
      * exists [], (c :: s). auto.
      * exists (c :: p), t. simpl. rewrite Hc, Hp.
        split; [reflexivity|]. split; [reflexivity|].
        destruct p; exact Hk.
    + intros ([|d p] & t & Hs & Hp & Hk); simpl in Hs.
      * subst t. left. exact Hk.
      * inversion Hs; subst. simpl in Hp. apply andb_true_iff in Hp as [Hd Hp].
        right. split; [exact Hd|]. exists p, t.
        split; [reflexivity|]. split; [exact Hp|]. destruct p; exact Hk.
Qed.

Lemma matchHere_jsx_extension (b : bool) (t : jsstring) :
  matchHere re_jsx_extension b t = true <-> In t jsx_extensions.
Proof.
  split.
  - destruct t as [|c1 [|c2 [|c3 [|c4 [|c5 [|c6 t]]]]]]; cbn; intros H; crack H;
    try discriminate; try (intuition discriminate).
    all: intuition (subst; try discriminate;
                    vm_compute; repeat ((left; reflexivity) || right)).
  - vm_compute. intuition (subst; reflexivity).
Qed.

(** The first rule accepts the paths that do not begin with
    [/node_modules/], end in one of its seven endings, and have no
    line terminator before that ending. *)
Lemma rule_jsx_spec (path : jsstring) :
  rule_jsx path = true <->
  startsWith path (str "/node_modules/") = false
  /\ exists p ext, path = p ++ ext /\ noLineTerminator p = true
                   /\ In ext jsx_extensions.
Proof.
  unfold rule_jsx, re_jsx, seqs at 1. cbn [fold_right].
  rewrite test_Bol.
  replace (matchHere _ true path)
    with (negb (exec (seqs (map Chr (str "/node_modules/"))) true path
                  (fun _ _ => true))
          && dotStar true path (matchHere re_jsx_extension))
    by reflexivity.
  rewrite exec_lit.
  rewrite andb_true_iff, negb_true_iff, dotStar_spec.
  split; intros [Hn (p & t & Hs & Hp & Hk)]; (split; [exact Hn|]);
    exists p, t; (split; [exact Hs|]); (split; [exact Hp|]).
  - apply matchHere_jsx_extension in Hk. exact Hk.
  - apply matchHere_jsx_extension. exact Hk.
Qed.

End RegexSpecs.

(** ** ReactPreset *)

Section ReactPresetProps.
Import ReactPreset.

Lemma rule_jsx_node_modules (t : jsstring) :
  rule_jsx (str "/node_modules/" ++ t) = false.
Proof.
  unfold rule_jsx, re_jsx, seqs at 1. cbn [fold_right].
  rewrite test_Bol. reflexivity.
Qed.

(** C4: a module whose filepath matches none of the three dispatch
    rules of the react preset makes [mapTransformers] throw an error
    whose message is "No transformer for " followed by that filepath;
    and for no module does [mapTransformers] return the empty chain. *)
Theorem mapTransformers_unmatched_throws (module : Module_) :
  (rule_jsx (filepath module) = false ->
   rule_script (filepath module) = false ->
   rule_css (filepath module) = false ->
   mapTransformers module
   = inl (Error (str "No transformer for " ++ filepath module)))
  /\ mapTransformers module <> inr [].
Proof.
  unfold mapTransformers. split.
  - intros -> -> ->. reflexivity.
  - destruct (rule_jsx _); [discriminate|].
    destruct (rule_script _); [discriminate|].
    destruct (rule_css _); discriminate.
Qed.

Lemma mapTransformers_unmatched_throws_witness :
  rule_jsx (str "/README.md") = false
  /\ rule_script (str "/README.md") = false
  /\ rule_css (str "/README.md") = false
  /\ mapTransformers {| filepath := str "/README.md"; source := [] |}
     = inl (Error (str "No transformer for /README.md")).
Proof.
  do 3 (split; [vm_compute; reflexivity|]).
  apply (proj1 (mapTransformers_unmatched_throws
                  {| filepath := str "/README.md"; source := [] |}));
    vm_compute; reflexivity.
Defined.

(** The dispatch on some paths. *)
Example dispatch_table :
  map chainLength
      [ "/a.jsx"; "/a.js"; "/a.mjs"; "/a.cjsx"; "/a.tsx"; "/a.ts"; "/a.mts";
        "/a.d.ts"; "/a.css"; "/a.json"; "/a.js/"; "js";
        "/node_modules/x/i.js"; "/node_modules/x/i.tsx";
        "/node_modules/x/i.d.ts"; "/x/node_modules/i.js" ]%string
  = [ Some 2; Some 2; Some 2; Some 2; Some 2; Some 1; Some 1;
      None; Some 2; None; None; None;
      Some 1; Some 1;
      None; Some 2 ]%nat.
Proof. vm_compute. reflexivity. Qed.

(** [.] does not match a line feed, so a path with one before the
    extension falls to the babel-only rule. *)
Example dispatch_line_feed :
  mapTransformers {| filepath := str "/a" ++ [10] ++ str "b.jsx"; source := [] |}
  = inr script_chain.
Proof. vm_compute. reflexivity. Qed.

(** The converse: [mapTransformers] throws only when no rule matches. *)
Lemma mapTransformers_throws_only_unmatched (module : Module_) (e : Exn) :
  mapTransformers module = inl e ->
  rule_jsx (filepath module) = false
  /\ rule_script (filepath module) = false
  /\ rule_css (filepath module) = false.
Proof.
  unfold mapTransformers.
  destruct (rule_jsx _); [discriminate|].
  destruct (rule_script _); [discriminate|].
  destruct (rule_css _); [discriminate|]. auto.
Qed.

(** C5: under the react preset, [/a.jsx] gets the two-element chain
    babel (react preset, react-refresh plugin) then react-refresh, in
    that order; [/a.unknownext] makes [mapTransformers] throw an error
    that cites [/a.unknownext]. *)
Theorem mapTransformers_jsx_and_unknown (src : jsstring) :
  mapTransformers {| filepath := str "/a.jsx"; source := src |}
  = inr [ (str "babel-transformer",
           JObj [ (str "presets",
                   JArr [ JArr [ JStr (str "react");
                                 JObj [ (str "runtime", JStr (str "automatic")) ] ] ]);
                  (str "plugins",
                   JArr [ JArr [ JStr (str "react-refresh/babel");
                                 JObj [ (str "skipEnvCheck", JBool true) ] ] ]) ]);
          (str "react-refresh-transformer", JObj []) ]
  /\ mapTransformers {| filepath := str "/a.unknownext"; source := src |}
     = inl (Error (str "No transformer for /a.unknownext")).
Proof. split; vm_compute; reflexivity. Qed.

(** C10: for a module whose filepath begins with [/node_modules/] the
    rule with react-refresh does not match, so no chain returned for
    it contains the react-refresh transformer; and when the filepath
    matches the plain script rule the module gets the one-element
    babel chain instead of an error. *)
Theorem node_modules_without_refresh (module : Module_) :
  startsWith (filepath module) (str "/node_modules/") = true ->
  rule_jsx (filepath module) = false
  /\ (forall chain,
        mapTransformers module = inr chain ->
        ~ In (str "react-refresh-transformer") (map fst chain))
  /\ (rule_script (filepath module) = true ->
      mapTransformers module
      = inr [ (str "babel-transformer",
               JObj [ (str "presets",
                       JArr [ JArr [ JStr (str "react");
                                     JObj [ (str "runtime",
                                             JStr (str "automatic")) ] ] ]) ]) ]).
Proof.
  intros H. apply startsWith_app in H as [t Ht].
  assert (Hjsx : rule_jsx (filepath module) = false)
    by (rewrite Ht; apply rule_jsx_node_modules).
  unfold mapTransformers. rewrite Hjsx. split; [reflexivity|]. split.
  - intros chain.
    destruct (rule_script _); [|destruct (rule_css _)]; intros Hc;
      inversion Hc; subst chain; simpl; intros Hin;
      repeat (destruct Hin as [Hin|Hin]; [vm_compute in Hin; discriminate|]);
      exact Hin.
  - intros ->. reflexivity.
Qed.

Lemma node_modules_without_refresh_witness :
  startsWith (str "/node_modules/react/index.js") (str "/node_modules/") = true
  /\ rule_script (str "/node_modules/react/index.js") = true
  /\ mapTransformers
       {| filepath := str "/node_modules/react/index.js"; source := [] |}
     = inr [ (str "babel-transformer",
              JObj [ (str "presets",
                      JArr [ JArr [ JStr (str "react");
                                    JObj [ (str "runtime",
                                            JStr (str "automatic")) ] ] ]) ]) ].
Proof.
  do 2 (split; [vm_compute; reflexivity|]).
  apply (node_modules_without_refresh
           {| filepath := str "/node_modules/react/index.js"; source := [] |});
    vm_compute; reflexivity.
Defined.

End ReactPresetProps.

Section AugmentDependencies.
Import ReactPreset.

Lemma react_refresh_is_not_core_js : str "react-refresh" <> str "core-js".
Proof. vm_compute. discriminate. Qed.

Lemma augmentDependencies_lookup_react_refresh (d : DepMap) :
  truthy (augmentDependencies d !! str "react-refresh") = true.
Proof.
  unfold augmentDependencies.
  rewrite lookup_insert_ne by (symmetry; apply react_refresh_is_not_core_js).
  destruct (truthy (d !! str "react-refresh")) eqn:Ht; simpl.
  - exact Ht.
  - rewrite lookup_insert_eq. reflexivity.
Qed.

(** C6: [augmentDependencies] is idempotent, and every key of the map
    it is given is a key of the map it returns. *)
Theorem augmentDependencies_idempotent_keeps_keys (d : DepMap) :
  augmentDependencies (augmentDependencies d) = augmentDependencies d
  /\ dom d ⊆ dom (augmentDependencies d).
Proof.
  split.
  - unfold augmentDependencies at 1.
    rewrite augmentDependencies_lookup_react_refresh. simpl.
    unfold augmentDependencies. apply insert_insert_eq.
  - unfold augmentDependencies.
    destruct (truthy (d !! str "react-refresh")); simpl;
      rewrite ?dom_insert_L; set_solver.
Qed.

(** A version the caller pinned for [react-refresh] is kept, and
    [core-js] is pinned whatever the caller gave. *)
Lemma augmentDependencies_pins (d : DepMap) (v : jsstring) :
  d !! str "react-refresh" = Some v -> v <> [] ->
  augmentDependencies d !! str "react-refresh" = Some v
  /\ augmentDependencies d !! str "core-js" = Some (str "3.22.7").
Proof.
  intros Hv Hne. unfold augmentDependencies. rewrite Hv.
  destruct v as [|c v]; [contradiction|]. simpl. split.
  - rewrite lookup_insert_ne by (symmetry; apply react_refresh_is_not_core_js).
    exact Hv.
  - apply lookup_insert_eq.
Qed.

End AugmentDependencies.

(** ** The registry *)

Section RegistryProps.
Import Registry.

Lemma PRESET_MAP_lookup (presetName : jsstring) :
  PRESET_MAP !! presetName =
  if decide (presetName = str "react")
  then Some {| presetClass := ReactPresetClass; heldByMap := true |}
  else if decide (presetName = str "solid")
       then Some {| presetClass := SolidPresetClass; heldByMap := true |}
       else None.
Proof.
  unfold PRESET_MAP. simpl.
  repeat case_decide; subst.
  - apply lookup_insert_eq.
  - rewrite lookup_insert_ne by congruence. apply lookup_insert_eq.
  - rewrite !lookup_insert_ne by congruence. apply lookup_empty.
Qed.

(** C7: [getPreset] never throws.  For a name held by [PRESET_MAP] it
    returns the preset held there and logs nothing; for every other
    name it returns a React preset and logs one warning. *)
Theorem getPreset_never_throws (presetName : jsstring) :
  exists preset log,
    getPreset presetName tt = (log, tt, inr preset)
    /\ ((PRESET_MAP !! presetName = Some preset /\ log = [])
        \/ (PRESET_MAP !! presetName = None
            /\ presetName <> str "react" /\ presetName <> str "solid"
            /\ presetClass preset = ReactPresetClass
            /\ log = [ Logged LWarn
                         (LText (str "Unknown preset " ++ presetName
                                   ++ str ", falling back to React")) ])).
Proof.
  unfold getPreset. pose proof (PRESET_MAP_lookup presetName) as HL.
  destruct (PRESET_MAP !! presetName) as [p|] eqn:E.
  - exists p, []. split; [reflexivity|]. left. split; reflexivity.
  - eexists _, _. split; [reflexivity|]. right.
    repeat case_decide; try discriminate. repeat split; assumption.
Qed.

Example getPreset_react :
  getPreset (str "react") tt
  = ([], tt, inr {| presetClass := ReactPresetClass; heldByMap := true |}).
Proof. vm_compute. reflexivity. Qed.

Example getPreset_solid :
  getPreset (str "solid") tt
  = ([], tt, inr {| presetClass := SolidPresetClass; heldByMap := true |}).
Proof. vm_compute. reflexivity. Qed.

End RegistryProps.

(** ** Promise.all and init *)

Section InitProps.
Import ReactPreset.

Lemma firstRejection_None {A} (ps : list (Settled A)) :
  firstRejection ps = None ->
  forall p, In p ps -> exists a, outcome p = inr a.
Proof.
  induction ps as [|q ps IH]; simpl; intros H p Hp; [contradiction|].
  destruct (outcome q) as [e|a] eqn:Eq.
  - destruct (firstRejection ps) as [[t' e']|]; [|discriminate].
    destruct (settledAt q <=? t')%nat; discriminate.
  - destruct Hp as [<-|Hp]; [eauto | exact (IH H p Hp)].
Qed.

Lemma firstRejection_Some {A} (ps : list (Settled A)) (t : nat) (e : Exn) :
  firstRejection ps = Some (t, e) ->
  exists p, In p ps /\ outcome p = inl e /\ settledAt p = t.
Proof.
  revert t e; induction ps as [|q ps IH]; simpl; intros t e H; [discriminate|].
  destruct (outcome q) as [eq|a] eqn:Eq.
  - destruct (firstRejection ps) as [[t' e']|] eqn:Er.
    + destruct (settledAt q <=? t')%nat; inversion H; subst.
      * exists q; auto.
      * destruct (IH _ _ eq_refl) as (p & Hp & Ho & Ht). exists p; auto.
    + inversion H; subst. exists q; auto.
  - destruct (IH _ _ H) as (p & Hp & Ho & Ht). exists p; auto.
Qed.

Lemma firstRejection_is_Some {A} (ps : list (Settled A)) (p : Settled A) (e : Exn) :
  In p ps -> outcome p = inl e -> exists t e', firstRejection ps = Some (t, e').
Proof.
  intros Hp Ho. destruct (firstRejection ps) as [[t e']|] eqn:E; [eauto|].
  destruct (firstRejection_None ps E p Hp) as [a Ha]. congruence.
Qed.

(** [Promise.all] rejects exactly when one of the promises rejects,
    and then with the reason of one that rejected. *)
Lemma Promise_all_rejects {A} (ps : list (Settled A)) (p : Settled A) (e : Exn) :
  In p ps -> outcome p = inl e ->
  exists e', Promise_all ps = inl e'
             /\ exists q, In q ps /\ outcome q = inl e'.
Proof.
  intros Hp Ho. unfold Promise_all.
  destruct (firstRejection_is_Some ps p e Hp Ho) as (t & e' & E).
  rewrite E. exists e'. split; [reflexivity|].
  destruct (firstRejection_Some ps t e' E) as (q & Hq & Hoq & _). eauto.
Qed.

Lemma Promise_all_fulfils {A} (ps : list (Settled A)) (vs : list A) :
  Promise_all ps = inr vs ->
  forall p, In p ps -> exists a, outcome p = inr a.
Proof.
  unfold Promise_all.
  destruct (firstRejection ps) as [[t e]|] eqn:E; [discriminate|].
  intros _. apply firstRejection_None. exact E.
Qed.

Lemma all_transformers (t : Transformer) :
  In t [ BabelTransformer; ReactRefreshTransformer;
         CSSTransformer; StyleTransformer ].
Proof. destruct t; simpl; auto. Qed.

Lemma registerTransformer_snd registration (ts : list Transformer) :
  map snd (map (registerTransformer registration) ts) = map registration ts.
Proof.
  induction ts as [|t ts IH]; simpl; [reflexivity|]. rewrite IH. f_equal.
  unfold registerTransformer. destruct (outcome (registration t)); reflexivity.
Qed.

Lemma registerTransformer_fst registration (ts : list Transformer) (t : Transformer) :
  In t ts -> (exists a, outcome (registration t) = inr a) ->
  In t (concat (map fst (map (registerTransformer registration) ts))).
Proof.
  intros Hin [a Ha]. induction ts as [|u ts IH]; simpl in *; [contradiction|].
  apply in_or_app. destruct Hin as [->|Hin]; [left | right; auto].
  unfold registerTransformer. rewrite Ha. simpl. auto.
Qed.

Local Abbreviation transformers :=
  [ BabelTransformer; ReactRefreshTransformer; CSSTransformer; StyleTransformer ].

Lemma init_after_super registration registry :
  init (inr tt) registration registry
  = (registry
       ++ concat (map fst (map (registerTransformer registration) transformers)),
     match Promise_all (map registration transformers) with
     | inl e => inl e
     | inr _ => inr tt
     end).
Proof.
  unfold init. cbv zeta.
  rewrite registerTransformer_snd. reflexivity.
Qed.

(** [init] fulfils only with all four transformers registered. *)
Lemma init_ready_all_registered super_init registration registry :
  snd (init super_init registration registry) = inr tt ->
  forall t, In t (fst (init super_init registration registry)).
Proof.
  destruct super_init as [e|[]]; [discriminate|].
  rewrite init_after_super. cbn [fst snd].
  destruct (Promise_all _) as [e|vs] eqn:E; [discriminate|]. intros _ t.
  apply in_or_app. right.
  apply (registerTransformer_fst registration _ t (all_transformers t)).
  apply (Promise_all_fulfils _ _ E). apply in_map. apply all_transformers.
Qed.

(** [init] rejects when a registration rejects, with the reason of a
    registration that rejected. *)
Lemma init_rejects super_init registration registry (t : Transformer) (e : Exn) :
  super_init = inr tt ->
  outcome (registration t) = inl e ->
  exists e', snd (init super_init registration registry) = inl e'
             /\ exists t', outcome (registration t') = inl e'.
Proof.
  intros -> Ho. rewrite init_after_super. cbn [fst snd].
  destruct (Promise_all_rejects _ (registration t) e
              (in_map registration _ t (all_transformers t)) Ho)
    as (e' & -> & q & Hq & Hoq).
  exists e'. split; [reflexivity|].
  apply in_map_iff in Hq as (t' & <- & _). eauto.
Qed.

End InitProps.

(** ** The compile cycle *)

Section OrchestratorProps.
Import Index.

Ltac cases_of_cycle w req :=
  destruct (logLevel req);
  destruct (isFirstLoad w);
  destruct (reactDevTools req) as [[|? ?]|];
  try match goal with
      | |- context [integrations_load w ?k] => destruct (integrations_load w k)
      end;
  try match goal with
      | |- context [compile w ?fs] => destruct (compile w fs) as [?|[[?|[]]|]]
      end.

(** The cycle when [initPreset] rejects: [handleCompile] rejects with
    the same reason right after [status=initializing]. *)
Lemma handleCompile_preset_rejects w req this e :
  initPreset w (template req) = inl e ->
  sent (traceOf (handleCompile w req) this)
  = [ msg "start" (Some (JObj [ (str "firstLoad", JBool (isFirstLoad w)) ]));
      msg "status" (status "initializing") ]
  /\ outcomeOf (handleCompile w req) this = inl e
  /\ bundlerCalls (traceOf (handleCompile w req) this)
     = [ Call_configureFS (hasFileResolver req) ]
       ++ (if isFirstLoad w then [ Call_resetModules ] else [])
       ++ [ Call_initPreset (template req) ].
Proof.
  intros H. unfold traceOf, outcomeOf, handleCompile. rewrite H.
  cases_of_cycle w req; vm_compute; auto.
Qed.

(** The cycle when [initPreset] succeeds: [handleCompile] returns, and
    what it sends is decided by the answers of [compile] and
    [evaluate]. *)
Lemma handleCompile_preset_ready w req this :
  initPreset w (template req) = inr tt ->
  sent (traceOf (handleCompile w req) this)
  = [ msg "start" (Some (JObj [ (str "firstLoad", JBool (isFirstLoad w)) ]));
      msg "status" (status "initializing") ]
    ++ sentAfterCompile w this (compile w (Object_values (modules req)))
    ++ [ msg "status" (status "idle") ]
  /\ outcomeOf (handleCompile w req) this = inr tt
  /\ bundlerCalls (traceOf (handleCompile w req) this)
     = [ Call_configureFS (hasFileResolver req) ]
       ++ (if isFirstLoad w then [ Call_resetModules ] else [])
       ++ [ Call_initPreset (template req);
            Call_compile (Object_values (modules req)) ]
       ++ callsAfterCompile (compile w (Object_values (modules req))).
Proof.
  intros H.
  unfold traceOf, outcomeOf, handleCompile, sentAfterCompile,
    callsAfterCompile, sendResizeEvent.
  rewrite H.
  cases_of_cycle w req; try (vm_compute; repeat split; reflexivity).
  all: cbv -[N.eqb lastHeight getDocumentHeight errorMessage];
    destruct (N.eqb (lastHeight this) (getDocumentHeight w));
    repeat split; reflexivity.
Qed.

(** When [initPreset] succeeds, the status values of the cycle are
    [initializing], then [evaluating] if [compile] gave a function to
    evaluate, then [idle]. *)
Lemma statuses_when_preset_ready w req this :
  initPreset w (template req) = inr tt ->
  statusValues (sent (traceOf (handleCompile w req) this))
  = [ str "initializing" ]
    ++ match compile w (Object_values (modules req)) with
       | inr (Some _) => [ str "evaluating" ]
       | _ => []
       end
    ++ [ str "idle" ].
Proof.
  intros H. destruct (handleCompile_preset_ready w req this H) as (-> & _ & _).
  unfold sentAfterCompile.
  destruct (compile w _) as [?|[[?|[]]|]]; try reflexivity.
  destruct (N.eqb _ _); reflexivity.
Qed.

(** When [initPreset] succeeds, the status values form a subsequence of initializing, evaluating,
    idle that ends in idle, and idle is sent once. *)
Lemma status_sequence_when_preset_ready w req this :
  initPreset w (template req) = inr tt ->
  let ms := sent (traceOf (handleCompile w req) this) in
  subsequence (statusValues ms)
    [ str "initializing"; str "evaluating"; str "idle" ] = true
  /\ last (statusValues ms) = Some (str "idle")
  /\ idleCount ms = 1%nat.
Proof.
  intros H ms. subst ms. unfold idleCount.
  rewrite (statuses_when_preset_ready w req this H).
  destruct (compile w _) as [?|[?|]]; repeat split; reflexivity.
Qed.

(** C1: the cycle does not end in idle on the path where [initPreset]
    rejects, though it does on the paths where [compile] or [evaluate]
    fails ([status_sequence_when_preset_ready]).  On the request
    [{modules: {'/a.jsx': ...}, template: 'react'}] with a bundler
    whose [initPreset] rejects, [handleCompile] sends
    [status=initializing] and rejects: the status values do not end in
    idle, and idle is sent zero times. *)
Theorem no_idle_when_preset_fails :
  statusValues
    (sent (traceOf (handleCompile Scenario.presetFails Scenario.request)
             Scenario.fresh))
  = [ str "initializing" ]
  /\ idleCount
       (sent (traceOf (handleCompile Scenario.presetFails Scenario.request)
                Scenario.fresh))
     = 0%nat
  /\ outcomeOf (handleCompile Scenario.presetFails Scenario.request)
       Scenario.fresh
     = inl (Error (str "Failed to load transformer")).
Proof.
  destruct (handleCompile_preset_rejects Scenario.presetFails Scenario.request
              Scenario.fresh (Error (str "Failed to load transformer")) eq_refl)
    as (Hs & Ho & _).
  unfold idleCount. rewrite Hs, Ho. repeat split; reflexivity.
Qed.

(** When [initPreset] succeeds, a failure of [compile] and a failure of [evaluate] each put one
    action message on the bus, and the cycle ends with [status=idle]. *)
Lemma one_action_per_failure_when_preset_ready w req this :
  initPreset w (template req) = inr tt ->
  let ms := sent (traceOf (handleCompile w req) this) in
  ((exists e, compile w (Object_values (modules req)) = inl e)
   \/ (exists e, compile w (Object_values (modules req)) = inr (Some (inl e))) ->
   countType "action" ms = 1%nat)
  /\ last ms = Some (msg "status" (status "idle")).
Proof.
  intros H ms. subst ms.
  destruct (handleCompile_preset_ready w req this H) as (-> & _ & _).
  unfold sentAfterCompile. split.
  - intros [[e ->]|[e ->]]; reflexivity.
  - destruct (compile w _) as [?|[[?|[]]|]]; try reflexivity.
    destruct (N.eqb _ _); reflexivity.
Qed.

(** C2: a failure of preset initialization sends no action message,
    though a failure of [compile] or of [evaluate] sends one
    ([one_action_per_failure_when_preset_ready]).  A [compile] message
    of the parent, then the debounce timer, with a bundler whose
    [initPreset] rejects: no action message is sent, the status never
    reaches idle, and the rejection of [handleCompile] ends in
    [logger.error] alone. *)
Theorem no_action_when_preset_fails :
  countType "action"
    (sent (traceOf (cycle Scenario.presetFails Scenario.request) Scenario.fresh))
  = 0%nat
  /\ statusValues
       (sent (traceOf (cycle Scenario.presetFails Scenario.request)
                Scenario.fresh))
     = [ str "initializing" ]
  /\ last (traceOf (cycle Scenario.presetFails Scenario.request) Scenario.fresh)
     = Some (Logged LError (LExn (Error (str "Failed to load transformer")))).
Proof. vm_compute. repeat split; reflexivity. Qed.

(** What the code does after the compile phase, when [initPreset]
    succeeded: one [done] message, whose flag tells whether [compile]
    failed and is carried under the key [compilatonError]; on failure
    the action message comes right before it, the HTML is replaced and
    [evaluate] is not called. *)
Lemma done_after_compile w req this :
  initPreset w (template req) = inr tt ->
  let tr := traceOf (handleCompile w req) this in
  ofType "done" (sent tr)
  = [ done (match compile w (Object_values (modules req)) with
            | inl _ => true
            | inr _ => false
            end) ]
  /\ (forall error,
        compile w (Object_values (modules req)) = inl error ->
        sent tr
        = [ msg "start" (Some (JObj [ (str "firstLoad", JBool (isFirstLoad w)) ]));
            msg "status" (status "initializing");
            msg "action" (Some (errorMessage w error));
            done true;
            msg "status" (status "idle") ]
        /\ In Call_replaceHTML (bundlerCalls tr)
        /\ ~ In Call_evaluate (bundlerCalls tr)).
Proof.
  intros H tr. subst tr.
  destruct (handleCompile_preset_ready w req this H) as (-> & _ & ->).
  unfold sentAfterCompile, callsAfterCompile. split.
  - destruct (compile w _) as [?|[[?|[]]|]]; try reflexivity.
    destruct (N.eqb _ _); reflexivity.
  - intros error ->. split; [reflexivity|]. split.
    + apply in_or_app. right. apply in_or_app. right.
      apply in_or_app. right. simpl. auto.
    + intros Hin. apply in_app_or in Hin as [Hin|Hin];
        [simpl in Hin; destruct Hin as [Hin|[]]; discriminate|].
      apply in_app_or in Hin as [Hin|Hin];
        [destruct (isFirstLoad w); simpl in Hin; intuition discriminate|].
      simpl in Hin. intuition discriminate.
Qed.

(** C3: one [done] message follows the compile phase
    ([done_after_compile]), but the code spells the name of its field
    [compilatonError].  After a compile that succeeds and after one
    that fails, the one [done] message has no field
    [compilationError]; the flag sits under [compilatonError]. *)
Theorem done_field_is_misspelt :
  (exists payload,
      ofType "done"
        (sent (traceOf (handleCompile Scenario.allFine Scenario.request)
                 Scenario.fresh))
      = [ (str "done", payload) ]
      /\ getField "compilationError" payload = None
      /\ getField "compilatonError" payload = Some (JBool false))
  /\ (exists payload,
        ofType "done"
          (sent (traceOf (handleCompile Scenario.compileFails Scenario.request)
                   Scenario.fresh))
        = [ (str "done", payload) ]
        /\ getField "compilationError" payload = None
        /\ getField "compilatonError" payload = Some (JBool true)).
Proof.
  split; eexists; (split; [vm_compute; reflexivity|]);
    split; vm_compute; reflexivity.
Qed.

(** In a cycle where [compile] succeeds and the call of [evaluate]
    throws, the messages are, in order: start, status=initializing,
    done (flag false), status=evaluating, one action message with the
    error, status=idle; no success message is sent. *)
Theorem evaluation_failure_sequence w req this (error : Exn) :
  initPreset w (template req) = inr tt ->
  compile w (Object_values (modules req)) = inr (Some (inl error)) ->
  let ms := sent (traceOf (handleCompile w req) this) in
  ms = [ msg "start" (Some (JObj [ (str "firstLoad", JBool (isFirstLoad w)) ]));
         msg "status" (status "initializing");
         msg "done" (Some (JObj [ (str "compilatonError", JBool false) ]));
         msg "status" (status "evaluating");
         msg "action" (Some (errorMessage w error));
         msg "status" (status "idle") ]
  /\ countType "action" ms = 1%nat
  /\ countType "success" ms = 0%nat.
Proof.
  intros H Hc ms. subst ms.
  destruct (handleCompile_preset_ready w req this H) as (-> & _ & _).
  rewrite Hc. repeat split; reflexivity.
Qed.

Lemma evaluation_failure_sequence_witness :
  initPreset Scenario.evaluateThrows (template Scenario.request) = inr tt
  /\ compile Scenario.evaluateThrows (Object_values (modules Scenario.request))
     = inr (Some (inl (Error (str "App is not defined"))))
  /\ map fst
       (sent (traceOf (handleCompile Scenario.evaluateThrows Scenario.request)
                Scenario.fresh))
     = [ str "start"; str "status"; str "done"; str "status"; str "action";
         str "status" ].
Proof.
  split; [reflexivity|]. split; [reflexivity|].
  rewrite (proj1 (evaluation_failure_sequence Scenario.evaluateThrows
                    Scenario.request Scenario.fresh
                    (Error (str "App is not defined")) eq_refl eq_refl)).
  reflexivity.
Defined.

(** C9: in a cycle where [compile] succeeds and the call of [evaluate]
    throws, the order is as it should be ([done], then one action
    message, then [status=idle], and no [success]), but the [done]
    message has no field [compilationError]: its flag sits under
    [compilatonError].  Run on the request
    [{modules: {'/a.jsx': ...}, template: 'react'}] with an [evaluate]
    that throws. *)
Theorem evaluation_failure_done_misspelt :
  let ms := sent (traceOf (handleCompile Scenario.evaluateThrows
                             Scenario.request) Scenario.fresh) in
  map fst ms
  = [ str "start"; str "status"; str "done"; str "status"; str "action";
      str "status" ]
  /\ statusValues ms = [ str "initializing"; str "evaluating"; str "idle" ]
  /\ countType "action" ms = 1%nat
  /\ countType "success" ms = 0%nat
  /\ exists payload,
      ofType "done" ms = [ (str "done", payload) ]
      /\ getField "compilationError" payload = None
      /\ getField "compilatonError" payload = Some (JBool false).
Proof.
  cbv zeta. do 4 (split; [vm_compute; reflexivity|]).
  eexists. split; [vm_compute; reflexivity|].
  split; vm_compute; reflexivity.
Qed.

(** [handleCompile] calls [compile] only after [initPreset] returned. *)
Lemma no_compile_when_preset_rejects w req this e :
  initPreset w (template req) = inl e ->
  forall files, ~ In (Call_compile files) (traceOf (handleCompile w req) this).
Proof.
  intros H files Hin.
  destruct (handleCompile_preset_rejects w req this e H) as (_ & _ & Hc).
  assert (Hf : In (Call_compile files)
                 (bundlerCalls (traceOf (handleCompile w req) this)))
    by (apply filter_In; split; [exact Hin | reflexivity]).
  rewrite Hc in Hf.
  destruct (isFirstLoad w); simpl in Hf; intuition discriminate.
Qed.

(** C8: when one of the registrations that [init] starts rejects,
    [init] rejects, with the reason of a registration that rejected
    (that very reason when the others succeed); [init] fulfils only
    with all four transformers registered; and a cycle whose
    [initPreset] answers what [init] answers rejects with that reason
    without calling [compile]. *)
Theorem init_rejects_as_a_whole super_init registration registry :
  (snd (ReactPreset.init super_init registration registry) = inr tt ->
   forall t, In t (fst (ReactPreset.init super_init registration registry)))
  /\ forall (t : ReactPreset.Transformer) (e : Exn),
      super_init = inr tt ->
      ReactPreset.outcome (registration t) = inl e ->
      exists e',
        snd (ReactPreset.init super_init registration registry) = inl e'
        /\ (exists t', ReactPreset.outcome (registration t') = inl e')
        /\ ((forall t', t' <> t ->
                        exists a, ReactPreset.outcome (registration t') = inr a) ->
            e' = e)
        /\ forall w req this,
            initPreset w (template req)
            = snd (ReactPreset.init super_init registration registry) ->
            outcomeOf (handleCompile w req) this = inl e'
            /\ forall files,
                ~ In (Call_compile files) (traceOf (handleCompile w req) this).
Proof.
  split; [apply init_ready_all_registered|].
  intros t e Hsuper Ho.
  destruct (init_rejects super_init registration registry t e Hsuper Ho)
    as (e' & Hinit & t' & Ht').
  exists e'. split; [exact Hinit|]. split; [eauto|]. split.
  - intros Hothers.
    destruct (decide (t' = t)) as [->|Hne]; [congruence|].
    destruct (Hothers t' Hne) as [a Ha]. congruence.
  - intros w req this Hw. rewrite Hinit in Hw. split.
    + apply (handleCompile_preset_rejects w req this e' Hw).
    + apply (no_compile_when_preset_rejects w req this e' Hw).
Qed.

Lemma init_rejects_as_a_whole_witness :
  ReactPreset.outcome (Scenario.cssRegistrationFails ReactPreset.CSSTransformer)
  = inl (Error (str "css-transformer failed to load"))
  /\ snd (ReactPreset.init (inr tt) Scenario.cssRegistrationFails [])
     = inl (Error (str "css-transformer failed to load"))
  /\ outcomeOf (handleCompile Scenario.cssRegistrationFailsWorld Scenario.request)
       Scenario.fresh
     = inl (Error (str "css-transformer failed to load")).
Proof.
  split; [reflexivity|].
  destruct (proj2 (init_rejects_as_a_whole (inr tt) Scenario.cssRegistrationFails [])
              ReactPreset.CSSTransformer
              (Error (str "css-transformer failed to load"))
              eq_refl eq_refl)
    as (e' & Hinit & _ & Hsame & Hcycle).
  assert (He : e' = Error (str "css-transformer failed to load")).
  { apply Hsame. intros t' Hne. exists tt.
    destruct t'; try reflexivity. contradiction. }
  subst e'. split; [exact Hinit|].
  apply (Hcycle Scenario.cssRegistrationFailsWorld Scenario.request
           Scenario.fresh eq_refl).
Defined.

End OrchestratorProps.

(** * Further properties *)

Section DispatchMore.
Import ReactPreset Endings.

Lemma endsWith_app_short (p a b : jsstring) :
  (length b <= length a)%nat -> endsWith (p ++ a) b = endsWith a b.
Proof.
  intros Hle. unfold endsWith. rewrite length_app.
  destruct (Nat.ltb_spec (length p + length a) (length b)) as [H1|H1]; [lia|].
  destruct (Nat.ltb_spec (length a) (length b)) as [H2|H2]; [lia|].
  f_equal. rewrite skipn_app.
  rewrite skipn_all2 by lia. simpl. f_equal. lia.
Qed.

(** Two endings of one string: one is an ending of the other. *)
Lemma endsWith_both (s a b : jsstring) :
  endsWith s a = true -> endsWith s b = true ->
  endsWith a b || endsWith b a = true.
Proof.
  intros Ha Hb. apply orb_true_iff.
  destruct (Nat.le_ge_cases (length b) (length a)) as [Hle|Hle].
  - left. apply endsWith_spec in Ha as [p ->].
    rewrite endsWith_app_short in Hb by exact Hle. exact Hb.
  - right. apply endsWith_spec in Hb as [p ->].
    rewrite endsWith_app_short in Ha by exact Hle. exact Ha.
Qed.

Lemma existsb_endsWith (s : jsstring) (exts : list jsstring) :
  existsb (endsWith s) exts = true <->
  exists p ext, In ext exts /\ s = p ++ ext.
Proof.
  rewrite existsb_exists. split.
  - intros (ext & Hin & H). apply endsWith_spec in H as [p ->]. eauto.
  - intros (p & ext & Hin & ->). exists ext. split; [exact Hin|].
    apply endsWith_spec. eauto.
Qed.

Lemma incompatible_endsWith (s a : jsstring) (exts : list jsstring) :
  incompatible a exts = true -> endsWith s a = true ->
  existsb (endsWith s) exts = false.
Proof.
  intros Hi Ha. apply not_true_iff_false. intros H.
  apply existsb_exists in H as (b & Hin & Hb).
  unfold incompatible in Hi. rewrite forallb_forall in Hi.
  specialize (Hi b Hin). rewrite (endsWith_both s a b Ha Hb) in Hi.
  discriminate.
Qed.

Lemma test_script_endsWith (path : jsstring) :
  test re_script path = existsb (endsWith path) script_extensions.
Proof.
  apply eq_true_iff_eq. rewrite existsb_endsWith, test_spec.
  - split.
    + intros (p & t & -> & H). apply matchHere_script in H. eauto.
    + intros (p & ext & Hin & ->). exists p, ext.
      split; [reflexivity|]. apply matchHere_script. exact Hin.
  - intros t. apply eq_true_iff_eq. rewrite !matchHere_script. reflexivity.
Qed.

Lemma rule_css_endsWith (path : jsstring) :
  rule_css path = endsWith path (str ".css").
Proof.
  apply eq_true_iff_eq. rewrite rule_css_spec, endsWith_spec. reflexivity.
Qed.

Lemma rule_jsx_endsWith (path : jsstring) :
  rule_jsx path = true -> existsb (endsWith path) jsx_extensions = true.
Proof.
  intros H. apply rule_jsx_spec in H as (_ & p & ext & -> & _ & Hin).
  apply existsb_endsWith. eauto.
Qed.

Lemma existsb_incl (s : jsstring) (l1 l2 : list jsstring) :
  incl l1 l2 ->
  existsb (endsWith s) l1 = true -> existsb (endsWith s) l2 = true.
Proof.
  intros Hi H. apply existsb_exists in H as (x & Hin & Hx).
  apply existsb_exists. exists x. split; [apply Hi; exact Hin | exact Hx].
Qed.

Lemma jsx_extensions_incl : incl jsx_extensions script_extensions.
Proof.
  intros x Hx. vm_compute in Hx. vm_compute.
  intuition (subst; auto 20).
Qed.

Lemma ts_only_extensions_incl : incl ts_only_extensions script_extensions.
Proof.
  intros x Hx. vm_compute in Hx. vm_compute.
  intuition (subst; auto 20).
Qed.

(** A path that ends in [a], with [a] compatible with no ending of
    [exts], ends in none of them. *)
Lemma endsWith_none (s : jsstring) (l exts : list jsstring) :
  forallb (fun a => incompatible a exts) l = true ->
  existsb (endsWith s) l = true ->
  existsb (endsWith s) exts = false.
Proof.
  intros Hall H. apply existsb_exists in H as (a & Hin & Ha).
  rewrite forallb_forall in Hall.
  exact (incompatible_endsWith s a exts (Hall a Hin) Ha).
Qed.

Lemma rule_jsx_false_of_endings (path : jsstring) :
  existsb (endsWith path) jsx_extensions = false -> rule_jsx path = false.
Proof.
  intros H. apply not_true_iff_false. intros Hj.
  apply rule_jsx_endsWith in Hj. congruence.
Qed.

(** X4: every path that the first test of [mapTransformers] accepts
    also passes the second test, so the order of the two tests is what
    gives such a path the chain with react-refresh. *)
Theorem refresh_rule_within_script_rule (module : Module_) :
  rule_jsx (filepath module) = true ->
  rule_script (filepath module) = true.
Proof.
  intros H. apply rule_jsx_endsWith in H. unfold rule_script.
  rewrite test_script_endsWith.
  rewrite (existsb_incl _ _ _ jsx_extensions_incl H). simpl.
  apply negb_true_iff.
  pose proof (endsWith_none (filepath module) jsx_extensions [str ".d.ts"]
                eq_refl H) as Hd.
  simpl in Hd. rewrite orb_false_r in Hd. exact Hd.
Qed.

Lemma refresh_rule_within_script_rule_witness :
  rule_jsx (str "/src/App.js") = true
  /\ rule_script (str "/src/App.js") = true.
Proof.
  split; [vm_compute; reflexivity|].
  apply (refresh_rule_within_script_rule
           {| filepath := str "/src/App.js"; source := [] |}).
  vm_compute; reflexivity.
Defined.

(** X1: [mapTransformers] returns a chain with the react-refresh
    transformer exactly for the paths that do not begin with
    [/node_modules/] and end in [.js], [.jsx], [.mjs], [.mjsx],
    [.cjs], [.cjsx] or [.tsx] with no line terminator before that
    ending. *)
Theorem refresh_chain_iff (module : Module_) :
  (exists chain,
      mapTransformers module = inr chain
      /\ In (str "react-refresh-transformer") (map fst chain))
  <-> startsWith (filepath module) (str "/node_modules/") = false
      /\ exists p ext,
          filepath module = p ++ ext
          /\ noLineTerminator p = true
          /\ In ext jsx_extensions.
Proof.
  rewrite <- rule_jsx_spec. unfold mapTransformers. split.
  - intros (chain & Hc & Hin).
    destruct (rule_jsx _); [reflexivity|].
    destruct (rule_script _); [|destruct (rule_css _)];
      inversion Hc; subst chain; simpl in Hin;
      repeat (destruct Hin as [Hin|Hin]; [vm_compute in Hin; discriminate|]);
      contradiction.
  - intros ->. exists jsx_chain. split; [reflexivity|].
    simpl. right. left. reflexivity.
Qed.

(** X2: [mapTransformers] returns the chain css-transformer then
    style-transformer exactly for the paths that end in [.css]. *)
Theorem css_chain_iff (module : Module_) :
  mapTransformers module
  = inr [ (str "css-transformer", JObj []); (str "style-transformer", JObj []) ]
  <-> exists p, filepath module = p ++ str ".css".
Proof.
  rewrite <- endsWith_spec. unfold mapTransformers. split.
  - destruct (rule_jsx _); [discriminate|].
    destruct (rule_script _); [discriminate|].
    destruct (rule_css _) eqn:Hc; [|discriminate].
    intros _. rewrite rule_css_endsWith in Hc. exact Hc.
  - intros H.
    assert (Hl : existsb (endsWith (filepath module)) [str ".css"] = true)
      by (simpl; rewrite H; reflexivity).
    rewrite (rule_jsx_false_of_endings _
               (endsWith_none _ [str ".css"] jsx_extensions eq_refl Hl)).
    unfold rule_script. rewrite test_script_endsWith.
    rewrite (endsWith_none _ [str ".css"] script_extensions eq_refl Hl).
    simpl. rewrite rule_css_endsWith, H. reflexivity.
Qed.

(** X3: [mapTransformers] throws exactly for the paths that end in
    [.d.ts], and for those that end in none of the twelve script
    endings nor in [.css]. *)
Theorem mapTransformers_throws_iff (module : Module_) :
  (exists e, mapTransformers module = inl e)
  <-> endsWith (filepath module) (str ".d.ts") = true
      \/ existsb (endsWith (filepath module))
           (script_extensions ++ [str ".css"]) = false.
Proof.
  split.
  - intros [e He].
    apply mapTransformers_throws_only_unmatched in He as (_ & Hs & Hc).
    unfold rule_script in Hs. rewrite test_script_endsWith in Hs.
    rewrite rule_css_endsWith in Hc.
    destruct (endsWith (filepath module) (str ".d.ts")); [left; reflexivity|].
    right. rewrite existsb_app. cbn [existsb negb] in *.
    rewrite andb_true_r in Hs. rewrite Hs, Hc. reflexivity.
  - intros H.
    assert (Hrules : rule_jsx (filepath module) = false
                     /\ rule_script (filepath module) = false
                     /\ rule_css (filepath module) = false).
    { destruct H as [Hd|Hn].
      - assert (Hl : existsb (endsWith (filepath module)) [str ".d.ts"] = true)
          by (simpl; rewrite Hd; reflexivity).
        split; [|split].
        + apply rule_jsx_false_of_endings.
          exact (endsWith_none _ [str ".d.ts"] jsx_extensions eq_refl Hl).
        + unfold rule_script. rewrite Hd. apply andb_false_r.
        + rewrite rule_css_endsWith.
          pose proof (endsWith_none _ [str ".d.ts"] [str ".css"] eq_refl Hl)
            as Hc.
          simpl in Hc. rewrite orb_false_r in Hc. exact Hc.
      - rewrite existsb_app in Hn. apply orb_false_iff in Hn as [Hs Hc].
        cbn [existsb] in Hc. rewrite orb_false_r in Hc. split; [|split].
        + apply rule_jsx_false_of_endings. apply not_true_iff_false.
          intros Hj. rewrite (existsb_incl _ _ _ jsx_extensions_incl Hj) in Hs.
          discriminate.
        + unfold rule_script. rewrite test_script_endsWith, Hs. reflexivity.
        + rewrite rule_css_endsWith. exact Hc. }
    destruct Hrules as (Hj & Hs & Hc).
    unfold mapTransformers. rewrite Hj, Hs, Hc. eexists. reflexivity.
Qed.

(** X5: a path that ends in [.ts], [.mts], [.cts], [.mtsx] or
    [.ctsx], and not in [.d.ts], gets the one-element babel chain
    without react-refresh, under [/node_modules/] or not. *)
Theorem typescript_files_without_refresh (module : Module_) :
  existsb (endsWith (filepath module)) ts_only_extensions = true ->
  endsWith (filepath module) (str ".d.ts") = false ->
  mapTransformers module
  = inr [ (str "babel-transformer",
           JObj [ (str "presets",
                   JArr [ JArr [ JStr (str "react");
                                 JObj [ (str "runtime",
                                         JStr (str "automatic")) ] ] ]) ]) ].
Proof.
  intros Ht Hd. unfold mapTransformers.
  rewrite (rule_jsx_false_of_endings _
             (endsWith_none _ ts_only_extensions jsx_extensions eq_refl Ht)).
  unfold rule_script. rewrite test_script_endsWith.
  rewrite (existsb_incl _ _ _ ts_only_extensions_incl Ht), Hd.
  reflexivity.
Qed.

Lemma typescript_files_without_refresh_witness :
  existsb (endsWith (str "/src/util.ts")) ts_only_extensions = true
  /\ endsWith (str "/src/util.ts") (str ".d.ts") = false
  /\ mapTransformers {| filepath := str "/src/util.ts"; source := [] |}
     = inr [ (str "babel-transformer",
              JObj [ (str "presets",
                      JArr [ JArr [ JStr (str "react");
                                    JObj [ (str "runtime",
                                            JStr (str "automatic")) ] ] ]) ]) ].
Proof.
  do 2 (split; [vm_compute; reflexivity|]).
  apply (typescript_files_without_refresh
           {| filepath := str "/src/util.ts"; source := [] |});
    vm_compute; reflexivity.
Defined.

End DispatchMore.

Section AugmentMore.
Import ReactPreset.

(** X6: after [augmentDependencies], [core-js] is ['3.22.7'] whatever
    the caller had; [react-refresh] keeps the caller's version when
    that is a non-empty string and is ['^0.11.0'] otherwise; every
    other key is as the caller had it; and the keys are those of the
    caller plus these two. *)
Theorem augmentDependencies_contents (d : DepMap) :
  (forall k,
      augmentDependencies d !! k =
      if decide (k = str "core-js") then Some (str "3.22.7")
      else if decide (k = str "react-refresh") then
             (if truthy (d !! k) then d !! k else Some (str "^0.11.0"))
           else d !! k)
  /\ dom (augmentDependencies d)
     = dom d ∪ {[ str "react-refresh"; str "core-js" ]}.
Proof.
  split.
  - intros k. unfold augmentDependencies.
    destruct (decide (k = str "core-js")) as [->|Hc].
    + apply lookup_insert_eq.
    + rewrite lookup_insert_ne by congruence.
      destruct (decide (k = str "react-refresh")) as [->|Hr].
      * destruct (truthy (d !! str "react-refresh")); simpl;
          [reflexivity | apply lookup_insert_eq].
      * destruct (truthy (d !! str "react-refresh")); simpl;
          [reflexivity | apply lookup_insert_ne; congruence].
  - unfold augmentDependencies.
    destruct (truthy (d !! str "react-refresh")) eqn:Ht; simpl;
      rewrite ?dom_insert_L; apply set_eq; intros x;
      rewrite !elem_of_union, !elem_of_singleton; [|tauto].
    assert (Hin : str "react-refresh" ∈ dom d).
    { apply elem_of_dom.
      destruct (d !! str "react-refresh"); [eauto|discriminate]. }
    intuition (subst; auto).
Qed.

End AugmentMore.

Section InitMore.
Import ReactPreset.

Lemma firstRejection_earliest {A} (ps : list (Settled A)) (t : nat) (e : Exn) :
  firstRejection ps = Some (t, e) ->
  forall q e', In q ps -> outcome q = inl e' -> (t <= settledAt q)%nat.
Proof.
  revert t e; induction ps as [|p ps IH]; simpl; intros t e H q e' Hq Ho;
    [contradiction|].
  destruct (outcome p) as [ep|a] eqn:Ep.
  - destruct (firstRejection ps) as [[t' e'']|] eqn:Er.
    + destruct (Nat.leb_spec (settledAt p) t') as [Hle|Hlt];
        injection H as <- <-; destruct Hq as [<-|Hq];
        try lia; pose proof (IH _ _ eq_refl q e' Hq Ho); lia.
    + injection H as <- <-. destruct Hq as [<-|Hq]; [lia|].
      destruct (firstRejection_None ps Er q Hq) as [a Ha]. congruence.
  - destruct Hq as [<-|Hq]; [congruence|]. exact (IH _ _ H q e' Hq Ho).
Qed.

Lemma Promise_all_fulfils_iff {A} (ps : list (Settled A)) :
  (exists vs, Promise_all ps = inr vs) <->
  forall p, In p ps -> exists a, outcome p = inr a.
Proof.
  split.
  - intros [vs H]. exact (Promise_all_fulfils ps vs H).
  - intros H. unfold Promise_all.
    destruct (firstRejection ps) as [[t e]|] eqn:E; [|eauto].
    destruct (firstRejection_Some ps t e E) as (p & Hp & Ho & _).
    destruct (H p Hp) as [a Ha]. congruence.
Qed.

(** X7: [init] fulfils exactly when [super.init] fulfils and all four
    registrations fulfil. *)
Theorem init_fulfils_iff super_init registration registry :
  snd (init super_init registration registry) = inr tt
  <-> super_init = inr tt
      /\ forall t, outcome (registration t) = inr tt.
Proof.
  split.
  - destruct super_init as [e|[]]; [discriminate|].
    rewrite init_after_super. cbn [snd].
    destruct (Promise_all _) as [e|vs] eqn:E; [discriminate|]. intros _.
    split; [reflexivity|]. intros t.
    destruct (Promise_all_fulfils _ _ E (registration t)) as [[] Ha];
      [apply in_map; apply all_transformers | exact Ha].
  - intros [-> Hall]. rewrite init_after_super. cbn [snd].
    match goal with
    | |- context [Promise_all ?ps] =>
        destruct (proj2 (Promise_all_fulfils_iff ps)) as [vs ->];
          [|reflexivity]
    end.
    intros p Hp. apply in_map_iff in Hp as (t & <- & _). eauto.
Qed.

(** X8: when [init] rejects, its reason is that of [super.init], or
    else [super.init] fulfilled and the reason is that of a
    registration that rejected no later than every other registration
    that rejected. *)
Theorem init_rejection_reason super_init registration registry (e : Exn) :
  snd (init super_init registration registry) = inl e ->
  super_init = inl e
  \/ (super_init = inr tt
      /\ exists t,
          outcome (registration t) = inl e
          /\ forall t' e',
              outcome (registration t') = inl e' ->
              (settledAt (registration t) <= settledAt (registration t'))%nat).
Proof.
  destruct super_init as [e0|[]].
  - simpl. intros H. left. congruence.
  - rewrite init_after_super. cbn [snd]. unfold Promise_all.
    destruct (firstRejection _) as [[n e1]|] eqn:E; [|discriminate].
    intros H. injection H as ->. right. split; [reflexivity|].
    destruct (firstRejection_Some _ n e E) as (p & Hp & Ho & Hn).
    apply in_map_iff in Hp as (t & <- & _). exists t. split; [exact Ho|].
    intros t' e' Ho'. rewrite Hn.
    apply (firstRejection_earliest _ n e E (registration t') e');
      [apply in_map; apply all_transformers | exact Ho'].
Qed.

Lemma init_rejection_reason_witness :
  snd (init (inr tt) Scenario.cssRegistrationFails [])
  = inl (Error (str "css-transformer failed to load"))
  /\ exists t,
      outcome (Scenario.cssRegistrationFails t)
      = inl (Error (str "css-transformer failed to load"))
      /\ forall t' e',
          outcome (Scenario.cssRegistrationFails t') = inl e' ->
          (settledAt (Scenario.cssRegistrationFails t)
           <= settledAt (Scenario.cssRegistrationFails t'))%nat.
Proof.
  split; [reflexivity|].
  destruct (init_rejection_reason (inr tt) Scenario.cssRegistrationFails []
              (Error (str "css-transformer failed to load")) eq_refl)
    as [H|[_ H]]; [discriminate | exact H].
Defined.

End InitMore.

Section CycleMore.
Import Index Polling Forwarding.

Ltac cases_of_cycle w req :=
  destruct (logLevel req);
  destruct (isFirstLoad w);
  destruct (reactDevTools req) as [[|? ?]|];
  try match goal with
      | |- context [integrations_load w ?k] => destruct (integrations_load w k)
      end;
  try match goal with
      | |- context [compile w ?fs] => destruct (compile w fs) as [?|[[?|[]]|]]
      end.

(** The instance after [handleCompile]: [lastHeight] is set by the
    resize measurement that follows an evaluation that returned, and
    nothing else changes. *)
Lemma handleCompile_state w req this :
  stateOf (handleCompile w req) this
  = match initPreset w (template req),
          compile w (Object_values (modules req)) with
    | inr _, inr (Some (inr _)) =>
        {| lastHeight := getDocumentHeight w; pending := pending this |}
    | _, _ => this
    end.
Proof.
  unfold stateOf, handleCompile, sendResizeEvent.
  destruct (initPreset w (template req)) as [?|[]];
    cases_of_cycle w req; try reflexivity.
  all: cbv -[N.eqb lastHeight pending getDocumentHeight errorMessage];
    destruct (N.eqb (lastHeight this) (getDocumentHeight w)); reflexivity.
Qed.

(** *** The bus with the status listener *)

Lemma sent_app (a b : list Event) : sent (a ++ b) = sent a ++ sent b.
Proof.
  induction a as [|[] a IH]; simpl; rewrite ?IH; reflexivity.
Qed.

Lemma statusValues_app (a b : list Message) :
  statusValues (a ++ b) = statusValues a ++ statusValues b.
Proof.
  induction a as [|m a IH]; [reflexivity|]. cbn [app statusValues].
  destruct (hasType "status" m); [|exact IH].
  destruct (getField "status" (snd m)) as [[]|]; rewrite ?IH; reflexivity.
Qed.

Lemma statusValues_forwarded (l : list jsstring) :
  statusValues (sent (map onStatusChange l)) = l.
Proof.
  induction l as [|s l IH]; [reflexivity|].
  cbn [map]. unfold onStatusChange at 1. cbn [sent].
  change (statusValues ((str "status", Some (JObj [(str "status", JStr s)]))
                          :: sent (map onStatusChange l)))
    with (s :: statusValues (sent (map onStatusChange l))).
  rewrite IH. reflexivity.
Qed.

Lemma statuses_onBus fires (tr : list Event) :
  statusValues (sent (onBus fires tr)) = flat_map (statusesAt fires) tr.
Proof.
  induction tr as [|ev tr IH]; [reflexivity|].
  cbn [onBus flat_map].
  change (ev :: (if isBundlerCall ev then map onStatusChange (fires ev) else [])
             ++ onBus fires tr)
    with ([ev] ++ (if isBundlerCall ev then map onStatusChange (fires ev) else [])
             ++ onBus fires tr).
  rewrite !sent_app, !statusValues_app, IH. unfold statusesAt.
  rewrite <- app_assoc. f_equal. f_equal.
  destruct (isBundlerCall ev); [apply statusValues_forwarded | reflexivity].
Qed.

Lemma statusesAt_other fires (ev : Event) :
  isSentOrCall ev = false -> statusesAt fires ev = [].
Proof.
  destruct ev; try discriminate; reflexivity.
Qed.

Lemma flat_map_sentAndCalls fires (tr : list Event) :
  flat_map (statusesAt fires) tr
  = flat_map (statusesAt fires) (sentAndCalls tr).
Proof.
  induction tr as [|ev tr IH]; [reflexivity|].
  unfold sentAndCalls. cbn [flat_map List.filter].
  destruct (isSentOrCall ev) eqn:E.
  - cbn [flat_map]. f_equal. exact IH.
  - rewrite (statusesAt_other fires ev E). exact IH.
Qed.

(** Messages and calls of the cycle, interleaved. *)
Lemma handleCompile_sentAndCalls w req this :
  sentAndCalls (traceOf (handleCompile w req) this)
  = [ Call_configureFS (hasFileResolver req);
      Sent (str "start") (Some (JObj [ (str "firstLoad", JBool (isFirstLoad w)) ]));
      Sent (str "status") (status "initializing") ]
    ++ (if isFirstLoad w then [ Call_resetModules ] else [])
    ++ [ Call_initPreset (template req) ]
    ++ match initPreset w (template req) with
       | inl _ => []
       | inr _ =>
           [ Call_compile (Object_values (modules req)) ]
           ++ match compile w (Object_values (modules req)) with
              | inl error =>
                  [ Sent (str "action") (Some (errorMessage w error));
                    Sent (str "done")
                      (Some (JObj [ (str "compilatonError", JBool true) ]));
                    Call_replaceHTML ]
              | inr None =>
                  [ Sent (str "done")
                      (Some (JObj [ (str "compilatonError", JBool false) ]));
                    Call_replaceHTML ]
              | inr (Some evaluate) =>
                  [ Sent (str "done")
                      (Some (JObj [ (str "compilatonError", JBool false) ]));
                    Call_replaceHTML;
                    Sent (str "status") (status "evaluating");
                    Call_evaluate ]
                  ++ match evaluate with
                     | inl error =>
                         [ Sent (str "action") (Some (errorMessage w error)) ]
                     | inr _ =>
                         (if N.eqb (lastHeight this) (getDocumentHeight w)
                          then []
                          else [ Sent (str "resize")
                                   (Some (JObj [ (str "height",
                                                  JNum (getDocumentHeight w)) ])) ])
                         ++ [ Sent (str "success") None ]
                     end
              end
           ++ [ Sent (str "status") (status "idle") ]
       end.
Proof.
  unfold sentAndCalls, traceOf, handleCompile, sendResizeEvent.
  destruct (initPreset w (template req)) as [?|[]];
    cases_of_cycle w req; try (vm_compute; reflexivity).
  all: cbv -[N.eqb lastHeight getDocumentHeight errorMessage];
    destruct (N.eqb (lastHeight this) (getDocumentHeight w)); reflexivity.
Qed.

Lemma sent_onBus_sentAndCalls fires (tr : list Event) :
  sent (onBus fires tr) = sent (onBus fires (sentAndCalls tr)).
Proof.
  induction tr as [|ev tr IH]; [reflexivity|].
  unfold sentAndCalls. cbn [onBus List.filter].
  destruct (isSentOrCall ev) eqn:E.
  - cbn [onBus].
    change (sent ([ev] ++ (if isBundlerCall ev
                           then map onStatusChange (fires ev) else [])
                  ++ onBus fires tr)
            = sent ([ev] ++ (if isBundlerCall ev
                             then map onStatusChange (fires ev) else [])
                    ++ onBus fires (sentAndCalls tr))).
    rewrite !sent_app, IH. reflexivity.
  - destruct ev; try discriminate; exact IH.
Qed.

Lemma last_sent_onBus fires (l : list Event) (t : jsstring) (p : option json) :
  last l = Some (Sent t p) -> last (sent (onBus fires l)) = Some (t, p).
Proof.
  induction l as [|ev l IH]; [discriminate|]. intros H.
  cbn [onBus].
  change (last (sent ([ev] ++ (if isBundlerCall ev
                               then map onStatusChange (fires ev) else [])
                      ++ onBus fires l)) = Some (t, p)).
  rewrite !sent_app, !last_app.
  destruct l as [|ev' l].
  - injection H as ->. reflexivity.
  - rewrite last_cons_cons in H. rewrite (IH H). reflexivity.
Qed.

(** The listener forwards status messages only. *)
Lemma ofType_onBus fires (type : string) (tr : list Event) :
  eqb (str "status") (str type) = false ->
  ofType type (sent (onBus fires tr)) = ofType type (sent tr).
Proof.
  intros Hne. unfold ofType.
  induction tr as [|ev tr IH]; [reflexivity|].
  cbn [onBus].
  change (List.filter (hasType type)
            (sent ([ev] ++ (if isBundlerCall ev
                            then map onStatusChange (fires ev) else [])
                   ++ onBus fires tr))
          = List.filter (hasType type) (sent ([ev] ++ tr))).
  rewrite !sent_app, !List.filter_app, IH. f_equal.
  destruct (isBundlerCall ev); [|reflexivity].
  induction (fires ev) as [|s l IHl]; [reflexivity|].
  cbn [map sent List.filter onStatusChange]. unfold hasType at 1.
  cbn [fst]. rewrite Hne. exact IHl.
Qed.

(** X9: [handleCompile] rejects exactly when [initPreset] rejects,
    with the same reason: no failure of the integration, of [compile]
    or of [evaluate] escapes it. *)
Theorem handleCompile_outcome w req this :
  outcomeOf (handleCompile w req) this = initPreset w (template req).
Proof.
  destruct (initPreset w (template req)) as [e|[]] eqn:H.
  - apply (handleCompile_preset_rejects w req this e H).
  - apply (handleCompile_preset_ready w req this H).
Qed.

(** X10: whatever happens later, the first two messages of
    [handleCompile] are [start] with the first-load flag of the
    bundler, then [status=initializing]. *)
Theorem handleCompile_opening w req this :
  firstn 2 (sent (traceOf (handleCompile w req) this))
  = [ msg "start" (Some (JObj [ (str "firstLoad", JBool (isFirstLoad w)) ]));
      msg "status" (status "initializing") ].
Proof.
  destruct (initPreset w (template req)) as [e|[]] eqn:H.
  - destruct (handleCompile_preset_rejects w req this e H) as (-> & _).
    reflexivity.
  - destruct (handleCompile_preset_ready w req this H) as (-> & _).
    reflexivity.
Qed.

(** X11: on the bus, with the status changes that the bundler fires
    during its calls forwarded by the listener of [init], the status
    values of a cycle whose [initPreset] succeeds are: [initializing],
    [evaluating] exactly when [compile] resolved with something to
    evaluate, and [idle], each sent once by [handleCompile] in this
    order, with between them the values the bundler fired during
    [configureFS], [resetModules], [initPreset], [compile],
    [replaceHTML] and [evaluate]; the last message on the bus is
    [status=idle]. *)
Theorem statuses_on_the_bus fires w req this :
  initPreset w (template req) = inr tt ->
  let tr := traceOf (handleCompile w req) this in
  statusValues (sent (onBus fires tr))
  = fires (Call_configureFS (hasFileResolver req))
    ++ [ str "initializing" ]
    ++ (if isFirstLoad w then fires Call_resetModules else [])
    ++ fires (Call_initPreset (template req))
    ++ fires (Call_compile (Object_values (modules req)))
    ++ fires Call_replaceHTML
    ++ match compile w (Object_values (modules req)) with
       | inr (Some _) => [ str "evaluating" ] ++ fires Call_evaluate
       | _ => []
       end
    ++ [ str "idle" ]
  /\ last (sent (onBus fires tr)) = Some (msg "status" (status "idle")).
Proof.
  intros H tr. subst tr. split.
  - rewrite statuses_onBus, flat_map_sentAndCalls, handleCompile_sentAndCalls, H.
    destruct (isFirstLoad w);
      destruct (compile w _) as [?|[[?|[]]|]]; try reflexivity.
    all: destruct (N.eqb _ _); reflexivity.
  - rewrite sent_onBus_sentAndCalls. apply last_sent_onBus.
    rewrite handleCompile_sentAndCalls, H.
    destruct (isFirstLoad w);
      destruct (compile w _) as [?|[[?|[]]|]]; try reflexivity.
    all: destruct (N.eqb _ _); reflexivity.
Qed.

(** X12: when [initPreset] succeeds, the number of action messages
    is one if [compile] rejected or [evaluate] threw, and zero
    otherwise. *)
Theorem actions_count_failures w req this :
  initPreset w (template req) = inr tt ->
  countType "action" (sent (traceOf (handleCompile w req) this))
  = match compile w (Object_values (modules req)) with
    | inl _ => 1%nat
    | inr (Some (inl _)) => 1%nat
    | inr (Some (inr _)) | inr None => 0%nat
    end.
Proof.
  intros H. destruct (handleCompile_preset_ready w req this H) as (-> & _).
  unfold sentAfterCompile.
  destruct (compile w _) as [?|[[?|[]]|]]; try reflexivity.
  destruct (N.eqb _ _); reflexivity.
Qed.

(** X13: when [compile] rejects, nothing is evaluated: on the bus the
    status values are [initializing] and [idle] with between them only
    what the bundler fired during its calls, none of them a call of
    [evaluate]; no success message is on the bus, [evaluate] is not
    called, and the last call on the bundler is [replaceHTML]. *)
Theorem failed_compile_is_not_evaluated fires w req this (error : Exn) :
  initPreset w (template req) = inr tt ->
  compile w (Object_values (modules req)) = inl error ->
  let tr := traceOf (handleCompile w req) this in
  statusValues (sent (onBus fires tr))
  = fires (Call_configureFS (hasFileResolver req))
    ++ [ str "initializing" ]
    ++ (if isFirstLoad w then fires Call_resetModules else [])
    ++ fires (Call_initPreset (template req))
    ++ fires (Call_compile (Object_values (modules req)))
    ++ fires Call_replaceHTML
    ++ [ str "idle" ]
  /\ countType "success" (sent (onBus fires tr)) = 0%nat
  /\ ~ In Call_evaluate tr
  /\ last (bundlerCalls tr) = Some Call_replaceHTML.
Proof.
  intros H Hc tr. subst tr. split; [|split; [|split]].
  - rewrite statuses_onBus, flat_map_sentAndCalls, handleCompile_sentAndCalls,
      H, Hc.
    destruct (isFirstLoad w); reflexivity.
  - unfold countType. rewrite (ofType_onBus fires "success") by reflexivity.
    destruct (handleCompile_preset_ready w req this H) as (-> & _).
    rewrite Hc. reflexivity.
  - intros Hin.
    destruct (handleCompile_preset_ready w req this H) as (_ & _ & Hb).
    assert (Hf : In Call_evaluate
                   (bundlerCalls (traceOf (handleCompile w req) this)))
      by (apply filter_In; split; [exact Hin | reflexivity]).
    rewrite Hb, Hc in Hf.
    destruct (isFirstLoad w); simpl in Hf; intuition discriminate.
  - destruct (handleCompile_preset_ready w req this H) as (_ & _ & ->).
    rewrite Hc. destruct (isFirstLoad w); reflexivity.
Qed.

(** X14: when [initPreset] succeeds, [success] is sent once if
    [evaluate] returned and not at all otherwise; when it is sent, no
    action message is sent and [success] is directly followed by the
    closing [status=idle]. *)
Theorem success_iff_evaluation_returns w req this :
  initPreset w (template req) = inr tt ->
  let ms := sent (traceOf (handleCompile w req) this) in
  countType "success" ms
  = match compile w (Object_values (modules req)) with
    | inr (Some (inr _)) => 1%nat
    | _ => 0%nat
    end
  /\ (countType "success" ms = 1%nat ->
      countType "action" ms = 0%nat
      /\ exists front,
          ms = front ++ [ msg "success" None; msg "status" (status "idle") ]).
Proof.
  intros H ms. subst ms.
  destruct (handleCompile_preset_ready w req this H) as (-> & _).
  unfold sentAfterCompile.
  destruct (compile w _) as [?|[[?|[]]|]];
    try (split; [reflexivity | intros; discriminate]).
  destruct (N.eqb _ _); (split; [reflexivity|]); intros _;
    (split; [reflexivity|]); eexists; simpl.
  - instantiate (1 := [_; _; _; _]). reflexivity.
  - instantiate (1 := [_; _; _; _; _]). reflexivity.
Qed.

(** X15: the calls on the bundler, in order: [configureFS];
    [resetModules] on a first load; [initPreset]; and, when that
    succeeded, [compile] with the modules in the order of the request,
    [replaceHTML], and [evaluate] when [compile] resolved with it. *)
Theorem bundler_calls_in_order w req this :
  bundlerCalls (traceOf (handleCompile w req) this)
  = [ Call_configureFS (hasFileResolver req) ]
    ++ (if isFirstLoad w then [ Call_resetModules ] else [])
    ++ [ Call_initPreset (template req) ]
    ++ match initPreset w (template req) with
       | inl _ => []
       | inr _ =>
           [ Call_compile (map snd (modules req)); Call_replaceHTML ]
           ++ match compile w (map snd (modules req)) with
              | inr (Some _) => [ Call_evaluate ]
              | _ => []
              end
       end.
Proof.
  destruct (initPreset w (template req)) as [e|[]] eqn:H.
  - destruct (handleCompile_preset_rejects w req this e H) as (_ & _ & ->).
    destruct (isFirstLoad w); reflexivity.
  - destruct (handleCompile_preset_ready w req this H) as (_ & _ & ->).
    unfold callsAfterCompile, Object_values.
    destruct (isFirstLoad w); destruct (compile w _) as [?|[?|]]; reflexivity.
Qed.

(** X16: what [integrations.load] answers changes neither the
    messages, nor the calls on the bundler, nor the outcome, nor the
    state that [handleCompile] leaves. *)
Theorem integrations_do_not_matter w load req this :
  sent (traceOf (handleCompile (withIntegrations w load) req) this)
  = sent (traceOf (handleCompile w req) this)
  /\ bundlerCalls (traceOf (handleCompile (withIntegrations w load) req) this)
     = bundlerCalls (traceOf (handleCompile w req) this)
  /\ outcomeOf (handleCompile (withIntegrations w load) req) this
     = outcomeOf (handleCompile w req) this
  /\ stateOf (handleCompile (withIntegrations w load) req) this
     = stateOf (handleCompile w req) this.
Proof.
  rewrite !handleCompile_state.
  change (initPreset (withIntegrations w load)) with (initPreset w).
  change (compile (withIntegrations w load)) with (compile w).
  change (getDocumentHeight (withIntegrations w load))
    with (getDocumentHeight w).
  destruct (initPreset w (template req)) as [e|[]] eqn:H.
  - destruct (handleCompile_preset_rejects w req this e H) as (-> & -> & ->).
    destruct (handleCompile_preset_rejects (withIntegrations w load) req this e H)
      as (-> & -> & ->).
    repeat split; reflexivity.
  - destruct (handleCompile_preset_ready w req this H) as (-> & -> & ->).
    destruct (handleCompile_preset_ready (withIntegrations w load) req this H)
      as (-> & -> & ->).
    repeat split; reflexivity.
Qed.


Lemma statuses_on_the_bus_witness :
  initPreset Scenario.allFine (template Scenario.request) = inr tt
  /\ statusValues
       (sent (onBus transpilingDuringCompile
                (traceOf (handleCompile Scenario.allFine Scenario.request)
                   Scenario.fresh)))
     = [ str "initializing"; str "transpiling"; str "evaluating"; str "idle" ].
Proof.
  split; [reflexivity|].
  exact (proj1 (statuses_on_the_bus transpilingDuringCompile Scenario.allFine
                  Scenario.request Scenario.fresh eq_refl)).
Defined.

Lemma actions_count_failures_witness :
  initPreset Scenario.evaluateThrows (template Scenario.request) = inr tt
  /\ countType "action"
       (sent (traceOf (handleCompile Scenario.evaluateThrows Scenario.request)
                Scenario.fresh))
     = 1%nat.
Proof.
  split; [reflexivity|].
  apply (actions_count_failures Scenario.evaluateThrows Scenario.request
           Scenario.fresh eq_refl).
Defined.

Lemma failed_compile_is_not_evaluated_witness :
  initPreset Scenario.compileFails (template Scenario.request) = inr tt
  /\ compile Scenario.compileFails (Object_values (modules Scenario.request))
     = inl (Error (str "Unexpected token"))
  /\ statusValues
       (sent (onBus transpilingDuringCompile
                (traceOf (handleCompile Scenario.compileFails Scenario.request)
                   Scenario.fresh)))
     = [ str "initializing"; str "transpiling"; str "idle" ].
Proof.
  do 2 (split; [reflexivity|]).
  exact (proj1 (failed_compile_is_not_evaluated transpilingDuringCompile
                  Scenario.compileFails Scenario.request Scenario.fresh
                  (Error (str "Unexpected token")) eq_refl eq_refl)).
Defined.

Lemma success_iff_evaluation_returns_witness :
  initPreset Scenario.allFine (template Scenario.request) = inr tt
  /\ countType "success"
       (sent (traceOf (handleCompile Scenario.allFine Scenario.request)
                Scenario.fresh))
     = 1%nat.
Proof.
  split; [reflexivity|].
  apply (success_iff_evaluation_returns Scenario.allFine Scenario.request
           Scenario.fresh eq_refl).
Defined.

End CycleMore.

Section PollingMore.
Import Index Polling.

Lemma sendResizeEvent_run w this :
  sendResizeEvent w this
  = ((if N.eqb (lastHeight this) (getDocumentHeight w) then []
      else [ Sent (str "resize")
               (Some (JObj [ (str "height", JNum (getDocumentHeight w)) ])) ]),
     {| lastHeight := getDocumentHeight w; pending := pending this |},
     inr tt).
Proof.
  unfold sendResizeEvent, sendMessage, Eff.bind, Eff.get, Eff.put, Eff.emit,
    Eff.ret.
  destruct (N.eqb (lastHeight this) (getDocumentHeight w)); reflexivity.
Qed.

Lemma last_cons (h d : N) (hs : list N) :
  List.last (h :: hs) d = List.last hs h.
Proof.
  revert h d; induction hs as [|k hs IH]; intros h d; [reflexivity|].
  change (List.last (k :: hs) d = List.last (k :: hs) h).
  rewrite !IH. reflexivity.
Qed.

Lemma poll_run w heights this :
  exists tr s,
    poll w heights this = (tr, s, inr tt)
    /\ resizeHeights (sent tr) = changes (lastHeight this) heights
    /\ lastHeight s = List.last heights (lastHeight this)
    /\ pending s = pending this.
Proof.
  revert this; induction heights as [|h hs IH]; intros this.
  - exists [], this. repeat split; reflexivity.
  - cbn [poll]. unfold Eff.bind. rewrite sendResizeEvent_run.
    cbn [withHeight getDocumentHeight].
    destruct (IH {| lastHeight := h; pending := pending this |})
      as (tr & s & -> & Hr & Hl & Hp).
    cbn [lastHeight pending] in Hr, Hl, Hp.
    eexists _, s. split; [reflexivity|]. split; [|split].
    + cbn [changes]. destruct (N.eqb (lastHeight this) h).
      * exact Hr.
      * cbn. rewrite Hr. reflexivity.
    + rewrite Hl. symmetry. apply last_cons.
    + exact Hp.
Qed.

Lemma changes_adjacentDistinct previous heights :
  adjacentDistinct previous (changes previous heights) = true.
Proof.
  revert previous; induction heights as [|h hs IH]; intros previous;
    [reflexivity|].
  cbn [changes]. destruct (N.eqb previous h) eqn:E.
  - apply N.eqb_eq in E. subst h. apply IH.
  - cbn [adjacentDistinct]. rewrite E. apply IH.
Qed.

(** X19: over successive runs of [sendResizeEvent], a [resize]
    message is sent for exactly the heights that differ from the
    height of the run before; no two [resize] messages in a row carry
    the same height, and [lastHeight] ends as the last height
    measured. *)
Theorem poll_reports_changes w heights this :
  resizeHeights (sent (traceOf (poll w heights) this))
  = changes (lastHeight this) heights
  /\ adjacentDistinct (lastHeight this)
       (resizeHeights (sent (traceOf (poll w heights) this))) = true
  /\ lastHeight (stateOf (poll w heights) this)
     = List.last heights (lastHeight this)
  /\ pending (stateOf (poll w heights) this) = pending this
  /\ outcomeOf (poll w heights) this = inr tt.
Proof.
  unfold traceOf, stateOf, outcomeOf.
  destruct (poll_run w heights this) as (tr & s & -> & Hr & Hl & Hp).
  cbn [fst snd]. rewrite Hr.
  repeat split; auto using changes_adjacentDistinct.
Qed.

Lemma clearInterval_newest (handle : positive) (win : Window) (rest : list positive) :
  intervals win = handle :: rest -> ~ In handle rest ->
  intervals (clearInterval handle win) = rest.
Proof.
  intros Hi Hn. unfold clearInterval. cbn [intervals]. rewrite Hi.
  cbn [List.filter]. rewrite Pos.eqb_refl. cbn [negb].
  clear Hi. induction rest as [|h rest IH]; [reflexivity|].
  cbn [List.filter]. destruct (Pos.eqb_spec h handle) as [->|Hne].
  - exfalso. apply Hn. left. reflexivity.
  - cbn [negb]. f_equal. apply IH. intros Hin. apply Hn. right. exact Hin.
Qed.

Lemma initResizeEvents_one_interval (n : nat) (win0 win : Window) (handle : positive) :
  Forall (fun h => (h < handle)%positive) (intervals win0) ->
  intervals win = handle :: intervals win0 ->
  (handle < nextHandle win)%positive ->
  exists handle' win',
    initResizeEvents n (Some handle, win) = (Some handle', win')
    /\ intervals win' = handle' :: intervals win0
    /\ ~ In handle' (intervals win0).
Proof.
  revert win handle; induction n as [|n IH]; intros win handle Hall Hi Hlt.
  - exists handle, win. split; [reflexivity|]. split; [exact Hi|].
    intros Hin. rewrite List.Forall_forall in Hall.
    specialize (Hall _ Hin). lia.
  - cbn [initResizeEvents initResizeEvent setInterval].
    assert (Hfresh : ~ In handle (intervals win0)).
    { intros Hin. rewrite List.Forall_forall in Hall.
      specialize (Hall _ Hin). lia. }
    apply IH.
    + rewrite List.Forall_forall in *. intros h Hh.
      specialize (Hall h Hh). cbn [nextHandle clearInterval]. lia.
    + cbn [intervals]. f_equal.
      apply (clearInterval_newest handle win _ Hi Hfresh).
    + cbn [nextHandle clearInterval]. lia.
Qed.

(** X20: however many times [initResizeEvent] is called, the window
    is left with one interval more than before the first call, the one
    held in [resizePollingTimer]. *)
Theorem one_polling_interval (n : nat) (win : Window) :
  Forall (fun h => (h < nextHandle win)%positive) (intervals win) ->
  exists handle win',
    initResizeEvents (S n) (None, win) = (Some handle, win')
    /\ intervals win' = handle :: intervals win
    /\ ~ In handle (intervals win).
Proof.
  intros Hall. cbn [initResizeEvents initResizeEvent setInterval].
  apply initResizeEvents_one_interval.
  - exact Hall.
  - reflexivity.
  - cbn [nextHandle]. lia.
Qed.

Lemma one_polling_interval_witness :
  Forall (fun h => (h < 8)%positive) [7; 3]%positive
  /\ exists handle win',
      initResizeEvents 3 (None, {| intervals := [7; 3]%positive; nextHandle := 8 |})
      = (Some handle, win')
      /\ intervals win' = handle :: [7; 3]%positive
      /\ ~ In handle [7; 3]%positive.
Proof.
  assert (H : Forall (fun h => (h < 8)%positive) [7; 3]%positive)
    by (repeat constructor).
  split; [exact H|].
  exact (one_polling_interval 2
           {| intervals := [7; 3]%positive; nextHandle := 8 |} H).
Defined.

End PollingMore.
